(** * astroNN.apogee.downloader: a shallow embedding of [src/downloader.py]

    The module downloads APOGEE catalogue and spectra files into a local
    mirror, checks them against sha1 checksums and re-downloads corrupted
    files.  The embedding below follows the Python text function by
    function.  The file system, the process-wide credential globals, the
    network and the terminal are threaded explicitly through a small
    state-and-exception monad. *)

From Stdlib Require Import ZArith Lia Bool List Ascii String DecimalString.
From stdpp Require Import base option list gmap strings.

Local Open Scope Z_scope.

(** ** Python strings *)

Module PyStr.

(** [s.startswith(p)] *)
Definition startswith (s p : string) : bool := String.prefix p s.

(** [p in s] for two strings: [p] occurs in [s] at some offset. *)
Fixpoint contains (p s : string) : bool :=
  String.prefix p s ||
  match s with
  | EmptyString => false
  | String _ s' => contains p s'
  end.

(** [s.endswith("/")] *)
Fixpoint endswith_sep (s : string) : bool :=
  match s with
  | EmptyString => false
  | String c EmptyString => Ascii.eqb c "/"
  | String _ s' => endswith_sep s'
  end.

Definition lower_ascii (c : ascii) : ascii :=
  let n := nat_of_ascii c in
  if (Nat.leb 65 n && Nat.leb n 90)%bool then ascii_of_nat (n + 32) else c.

(** [s.lower()] *)
Fixpoint lower (s : string) : string :=
  match s with
  | EmptyString => EmptyString
  | String c s' => String (lower_ascii c) (lower s')
  end.

(** [str(n)] and [f"{n}"], [f"{n:d}"] for an integer. *)
Definition of_Z (n : Z) : string := NilZero.string_of_int (Z.to_int n).

(** [f"{v}"] for a value that is [None] or a string. *)
Definition fmt (v : option string) : string :=
  match v with
  | None => "None"
  | Some s => s
  end.

End PyStr.

(** ** [os.path] on a POSIX system *)

Module OsPath.

Definition sep : string := "/".

(** One round of the loop of [posixpath.join]. *)
Definition join_step (path b : string) : string :=
  if PyStr.startswith b sep then b
  else if (bool_decide (path = "") || PyStr.endswith_sep path)%bool then path +:+ b
  else path +:+ sep +:+ b.

(** [os.path.join(a, *p)] *)
Definition join (a : string) (p : list string) : string :=
  fold_left join_step p a.

(** The part of [p] up to and including its last separator
    ([p[:p.rfind("/") + 1]]). *)
Fixpoint head_to_last_sep (p : string) : string :=
  match p with
  | EmptyString => EmptyString
  | String c p' =>
      if PyStr.contains sep p then String c (head_to_last_sep p') else EmptyString
  end.

Fixpoint all_sep (s : string) : bool :=
  match s with
  | EmptyString => true
  | String c s' => Ascii.eqb c "/" && all_sep s'
  end.

(** [s.rstrip("/")] *)
Fixpoint rstrip_sep (s : string) : string :=
  match s with
  | EmptyString => EmptyString
  | String c s' => if all_sep s then EmptyString else String c (rstrip_sep s')
  end.

(** [os.path.dirname(p)] *)
Definition dirname (p : string) : string :=
  let head := head_to_last_sep p in
  if all_sep head then head else rstrip_sep head.

End OsPath.

Example join_abs : OsPath.join "/" ["/sas"; "dr17/apogee/"; "x.fits"] = "/sas/dr17/apogee/x.fits".
Proof. reflexivity. Qed.
Example join_rel : OsPath.join "/" ["sas"; "dr17/apogee"; "None"] = "/sas/dr17/apogee/None".
Proof. reflexivity. Qed.
Example dirname_ex : OsPath.dirname "/sas/dr17/x.fits" = "/sas/dr17".
Proof. reflexivity. Qed.
Example of_Z_ex : PyStr.of_Z 17 = "17".
Proof. reflexivity. Qed.
Example contains_ex : PyStr.contains "401" "HTTP Error 401: Unauthorized" = true.
Proof. reflexivity. Qed.

(** ** The world the module runs in *)

(** What the remote answers to one request.  [RespOk c] delivers a body,
    [RespHTTPError code msg] makes urllib raise [urllib.error.HTTPError],
    [RespURLError] stands for every failure that is not an HTTP status
    (no route, time-out, ...). *)
Inductive response :=
| RespOk (body : string)
| RespHTTPError (code : Z) (msg : string)
| RespURLError.

(** What the module imports and what it talks to; fixed during a call.
    [apogee_env], [apogee_default_dr] and [filehash] are imported from
    [astroNN.apogee.apogee_shared] and [astroNN.shared.downloader_tools];
    [loadtxt c] is [np.loadtxt(f, dtype="str").T] on a file of content [c],
    read as the rows (checksum, file name) of the two columns
    [hash_list[0]] and [hash_list[1]], or [None] when numpy raises.
    [server n url] is the answer to the request number [n] of the process
    when it asks for [url]; [stdin n] is the line number [n] typed at the
    terminal. *)
Record Env := {
  apogee_env : string;
  apogee_default_dr : option Z -> Z;
  filehash : string -> string;
  loadtxt : string -> option (list (string * string));
  server : nat -> string -> response;
  stdin : nat -> string;
}.

Inductive event :=
| EvUrlretrieve (url path : string)
| EvUrlopen (url : string)
| EvWarn (msg : string)
| EvInfo (msg : string)
| EvPrint (msg : string)
| EvPrompt (msg : string).

(** The mutable state: regular files with their content, directories, the
    two credential globals, how many requests and terminal lines were
    consumed, and what happened so far (newest event first). *)
Record world := {
  fs : gmap string string;
  dirs : gset string;
  credentials_username : option string;
  credentials_pw : option string;
  nreq : nat;
  nin : nat;
  trace : list event;
}.

Definition set_fs (f : gmap string string -> gmap string string) (w : world) : world :=
  {| fs := f (fs w); dirs := dirs w;
     credentials_username := credentials_username w; credentials_pw := credentials_pw w;
     nreq := nreq w; nin := nin w; trace := trace w |}.

Definition set_dirs (f : gset string -> gset string) (w : world) : world :=
  {| fs := fs w; dirs := f (dirs w);
     credentials_username := credentials_username w; credentials_pw := credentials_pw w;
     nreq := nreq w; nin := nin w; trace := trace w |}.

Definition set_credentials (u p : option string) (w : world) : world :=
  {| fs := fs w; dirs := dirs w;
     credentials_username := u; credentials_pw := p;
     nreq := nreq w; nin := nin w; trace := trace w |}.

Definition emit (e : event) (w : world) : world :=
  {| fs := fs w; dirs := dirs w;
     credentials_username := credentials_username w; credentials_pw := credentials_pw w;
     nreq := nreq w; nin := nin w; trace := e :: trace w |}.

Definition tick_req (w : world) : world :=
  {| fs := fs w; dirs := dirs w;
     credentials_username := credentials_username w; credentials_pw := credentials_pw w;
     nreq := S (nreq w); nin := nin w; trace := trace w |}.

Definition tick_in (w : world) : world :=
  {| fs := fs w; dirs := dirs w;
     credentials_username := credentials_username w; credentials_pw := credentials_pw w;
     nreq := nreq w; nin := S (nin w); trace := trace w |}.

(** ** Python values and exceptions *)

(** What a download function can hand back: a string, [False]
    (the module's [warning_flag]) or [None]. *)
Inductive pyval :=
| PStr (s : string)
| PFalse
| PNone.

Inductive exn :=
| ValueError (msg : string)
| ConnectionError (msg : string)
| HTTPError (code : Z) (msg : string)
| URLError
| FileNotFoundError (path : string)
| LoadtxtError.

(** [str(emsg)] for an [HTTPError]: ["HTTP Error %s: %s" % (code, msg)]. *)
Definition str_HTTPError (code : Z) (msg : string) : string :=
  "HTTP Error " +:+ PyStr.of_Z code +:+ ": " +:+ msg.

(** ** The monad: state, exceptions, and running out of stack *)

Inductive res (A : Type) :=
| Ret (a : A)
| Raise (e : exn)
| Diverge.
Arguments Ret {A} a.
Arguments Raise {A} e.
Arguments Diverge {A}.

Definition M (A : Type) : Type := world -> res A * world.

Definition ret {A} (a : A) : M A := fun w => (Ret a, w).
Definition raise {A} (e : exn) : M A := fun w => (Raise e, w).
Definition diverge {A} : M A := fun w => (Diverge, w).

Definition bind {A B} (m : M A) (k : A -> M B) : M B := fun w =>
  match m w with
  | (Ret a, w') => k a w'
  | (Raise e, w') => (Raise e, w')
  | (Diverge, w') => (Diverge, w')
  end.

(** [try: m  except urllib.error.HTTPError as emsg: h] *)
Definition try_except_HTTPError {A} (m : M A) (h : Z -> string -> M A) : M A := fun w =>
  match m w with
  | (Raise (HTTPError code msg), w') => h code msg w'
  | r => r
  end.

Declare Scope py_scope.
Delimit Scope py_scope with py.
Notation "x <- m ;; k" := (bind m (fun x => k))
  (at level 100, m at next level, right associativity) : py_scope.
Notation "m ;; k" := (bind m (fun _ => k))
  (at level 100, right associativity) : py_scope.
Local Open Scope py_scope.

Definition modify (f : world -> world) : M unit := fun w => (Ret tt, f w).

Section Downloader.

Variable E : Env.

(** *** Primitives *)

(** [os.path.isfile(p)] *)
Definition isfile (p : string) : M bool := fun w => (Ret (bool_decide (is_Some (fs w !! p))), w).

(** [os.path.exists(p)] *)
Definition path_exists (p : string) : M bool := fun w =>
  (Ret (bool_decide (is_Some (fs w !! p)) || bool_decide (p ∈ dirs w))%bool, w).

(** [os.makedirs(p)] *)
Definition makedirs (p : string) : M unit := modify (set_dirs (fun d => {[p]} ∪ d)).

(** [if not os.path.exists(p): os.makedirs(p)] *)
Definition ensure_dir (p : string) : M unit :=
  b <- path_exists p ;;
  if negb b then makedirs p else ret tt.

(** [filehash(p, algorithm="sha1")] *)
Definition filehash_of (p : string) : M string := fun w =>
  match fs w !! p with
  | Some c => (Ret (filehash E c), w)
  | None => (Raise (FileNotFoundError p), w)
  end.

(** [np.loadtxt(p, dtype="str").T] *)
Definition loadtxt_of (p : string) : M (list (string * string)) := fun w =>
  match fs w !! p with
  | Some c =>
      match loadtxt E c with
      | Some rows => (Ret rows, w)
      | None => (Raise LoadtxtError, w)
      end
  | None => (Raise (FileNotFoundError p), w)
  end.

Definition warn (msg : string) : M unit := modify (emit (EvWarn msg)).
Definition logging_info (msg : string) : M unit := modify (emit (EvInfo msg)).
Definition print (msg : string) : M unit := modify (emit (EvPrint msg)).

(** Reading the global [__apogee_credentials_username]. *)
Definition read_username : M (option string) := fun w => (Ret (credentials_username w), w).

(** [input(prompt)] and [getpass.getpass(prompt)] *)
Definition input (prompt : string) : M string := fun w =>
  (Ret (stdin E (nin w)), tick_in (emit (EvPrompt prompt) w)).

(** [urllib.request.urlretrieve(url, path)]: the request is answered by the
    remote; a body is written to [path], an HTTP status other than success
    raises before the file is opened. *)
Definition urlretrieve (url path : string) : M unit := fun w =>
  let w1 := tick_req (emit (EvUrlretrieve url path) w) in
  match server E (nreq w) url with
  | RespOk c => (Ret tt, set_fs (fun f => <[path := c]> f) w1)
  | RespHTTPError code msg => (Raise (HTTPError code msg), w1)
  | RespURLError => (Raise URLError, w1)
  end.

(** [urllib.request.urlopen(url)], the result dropped. *)
Definition urlopen (url : string) : M unit := fun w =>
  let w1 := tick_req (emit (EvUrlopen url) w) in
  match server E (nreq w) url with
  | RespOk _ => (Ret tt, w1)
  | RespHTTPError code msg => (Raise (HTTPError code msg), w1)
  | RespURLError => (Raise URLError, w1)
  end.

Definition corruption_msg : string :=
  "File corruption detected, astroNN is attempting to download again".

(** *** [__apogee_credentials_downloader]

    The password manager and the opener it installs only change how urllib
    answers later requests; that is part of [server]. *)
Definition credentials_downloader (url fullfilename : string) : M pyval :=
  u <- read_username ;;
  (match u with
   | None =>
       print "
You are trying to access APOGEE proprietary data...Please provide username and password..." ;;
       name <- input "Username: " ;;
       pw <- input "Password: " ;;
       modify (set_credentials (Some name) (Some pw))
   | Some _ => ret tt
   end) ;;
  ensure_dir (OsPath.dirname fullfilename) ;;
  try_except_HTTPError
    (urlretrieve url fullfilename ;;
     ret (PStr fullfilename))
    (fun code msg =>
       let emsg := str_HTTPError code msg in
       if PyStr.contains "401" emsg then
         modify (set_credentials None None) ;;
         raise (ConnectionError "Wrong username or password")
       else if PyStr.contains "404" emsg then
         warn (url +:+ " cannot be found on server, skipped") ;;
         ret PFalse
       else
         warn ("Unknown error occurred - " +:+ emsg) ;;
         ret PFalse).

(** The handler shared, word for word, by [allstar], [apogee_astronn],
    [combined_spectra], [visit_spectra] and [apogee_rc]:
    [except urllib.error.HTTPError as emsg: if "401" in str(emsg): ...]. *)
Definition on_HTTPError (url fullfilename : string) (code : Z) (msg : string) : M pyval :=
  let emsg := str_HTTPError code msg in
  if PyStr.contains "401" emsg then
    credentials_downloader url fullfilename
  else if PyStr.contains "404" emsg then
    warn (url +:+ " cannot be found on server, skipped") ;;
    ret PFalse
  else
    warn ("Unknown error occurred - " +:+ emsg) ;;
    ret PFalse.

(** [flag is None] and [flag == 1] *)
Definition is_None {A} (o : option A) : bool := match o with None => true | Some _ => false end.
Definition eq_1 (flag : option Z) : bool := match flag with Some n => n =? 1 | None => false end.

(** *** Where each file lives: local path and remote URL *)

Definition allstar_file_hash : string := "0e70c02323132af4045545d2329e3f1cb8fdb1e0".
Definition allstar_filename : string := "allStar-dr17-synspec.fits".
Definition allstar_fullfoldername : string :=
  OsPath.join OsPath.sep [apogee_env E; "dr17/apogee/spectro/aspcap/dr17/synspec/"].
Definition allstar_fullfilename : string :=
  OsPath.join OsPath.sep [allstar_fullfoldername; allstar_filename].
Definition allstar_url : string :=
  "https://data.sdss.org/sas/dr17/apogee/spectro/aspcap/dr17/synspec/" +:+ allstar_filename.

Definition astronn_file_hash : string := "c422b9adba840b3415af2fe6dec6500219f1b68f".
Definition astronn_filename : string := "apogee_astroNN-DR17.fits".
Definition astronn_fullfoldername : string :=
  OsPath.join OsPath.sep [apogee_env E; "dr17/apogee/vac/apogee-astronn/"].
Definition astronn_fullfilename : string :=
  OsPath.join OsPath.sep [astronn_fullfoldername; astronn_filename].
Definition astronn_url : string :=
  "https://data.sdss.org/sas/dr17/apogee/vac/apogee-astronn/" +:+ astronn_filename.

Definition allvisit_file_hash : string := "fb2f5ecbabbe156f8ec37b420e095f3ba8323cc6".
Definition allvisit_filename : string := "allVisit-dr17-synspec.fits".
Definition allvisit_fullfilepath : string :=
  OsPath.join OsPath.sep [apogee_env E; "dr17/apogee/spectro/aspcap/dr17/synspec/"].
Definition allvisit_fullfilename : string :=
  OsPath.join OsPath.sep [allvisit_fullfilepath; allvisit_filename].
Definition allvisit_url : string :=
  "https://data.sdss.org/sas/dr17/apogee/spectro/aspcap/dr17/synspec/" +:+ allvisit_filename.

Definition reduce_prefix : string := "dr17".
Definition aspcap_code : string := "synspec".

Definition combined_str1 (telescope field : option string) : string :=
  "https://data.sdss.org/sas/dr17/apogee/spectro/aspcap/" +:+ reduce_prefix +:+ "/" +:+
  aspcap_code +:+ "/" +:+ PyStr.fmt telescope +:+ "/" +:+ PyStr.fmt field +:+ "/".
Definition combined_filename (apogee : option string) : string :=
  "aspcapStar-" +:+ reduce_prefix +:+ "-" +:+ PyStr.fmt apogee +:+ ".fits".
Definition combined_hash_filename (telescope field : option string) : string :=
  reduce_prefix +:+ "_" +:+ aspcap_code +:+ "_" +:+ PyStr.fmt telescope +:+ "_" +:+
  PyStr.fmt field +:+ ".sha1sum".
Definition combined_urlstr (telescope field apogee : option string) : string :=
  combined_str1 telescope field +:+ combined_filename apogee.
Definition combined_fullfoldername (dr : Z) (telescope field : option string) : string :=
  OsPath.join OsPath.sep
    [apogee_env E;
     "dr" +:+ PyStr.of_Z dr +:+ "/apogee/spectro/aspcap/" +:+ reduce_prefix +:+ "/" +:+
       aspcap_code +:+ "/" +:+ PyStr.fmt telescope;
     PyStr.fmt field].
Definition combined_fullfilename (dr : Z) (telescope field apogee : option string) : string :=
  OsPath.join OsPath.sep [combined_fullfoldername dr telescope field; combined_filename apogee].
Definition combined_full_hash_filename (dr : Z) (telescope field : option string) : string :=
  OsPath.join OsPath.sep
    [combined_fullfoldername dr telescope field; combined_hash_filename telescope field].

Definition visit_str1 (telescope field : option string) : string :=
  "https://data.sdss.org/sas/dr17/apogee/spectro/redux/" +:+ reduce_prefix +:+ "/stars/" +:+
  PyStr.fmt telescope +:+ "/" +:+ PyStr.fmt field +:+ "/".
Definition visit_filename (telescope apogee : option string) (commission : bool) : string :=
  if bool_decide (telescope = Some "lco25m") then
    if commission then "asStarC-" +:+ reduce_prefix +:+ "-" +:+ PyStr.fmt apogee +:+ ".fits"
    else "asStar-" +:+ reduce_prefix +:+ "-" +:+ PyStr.fmt apogee +:+ ".fits"
  else
    if commission then "apStarC-" +:+ reduce_prefix +:+ "-" +:+ PyStr.fmt apogee +:+ ".fits"
    else "apStar-" +:+ reduce_prefix +:+ "-" +:+ PyStr.fmt apogee +:+ ".fits".
Definition visit_urlstr (telescope field apogee : option string) (commission : bool) : string :=
  visit_str1 telescope field +:+ visit_filename telescope apogee commission.
Definition visit_hash_filename (telescope field : option string) : string :=
  reduce_prefix +:+ "_stars_" +:+ PyStr.fmt telescope +:+ "_" +:+ PyStr.fmt field +:+ ".sha1sum".
Definition visit_fullfoldername (dr : Z) (telescope field : option string) : string :=
  OsPath.join OsPath.sep
    [apogee_env E;
     "dr" +:+ PyStr.of_Z dr +:+ "/apogee/spectro/redux/" +:+ reduce_prefix +:+ "/stars/" +:+
       PyStr.fmt telescope +:+ "/";
     PyStr.fmt field].
Definition visit_full_hash_filename (dr : Z) (telescope field : option string) : string :=
  OsPath.join OsPath.sep
    [visit_fullfoldername dr telescope field; visit_hash_filename telescope field].
Definition visit_fullfilename (dr : Z) (telescope field apogee : option string)
    (commission : bool) : string :=
  OsPath.join OsPath.sep
    [visit_fullfoldername dr telescope field; visit_filename telescope apogee commission].
(** The text looked for in the manifest's file names: [f"apStar-{reduce_prefix}-{apogee}"]. *)
Definition visit_hash_pattern (apogee : option string) : string :=
  "apStar-" +:+ reduce_prefix +:+ "-" +:+ PyStr.fmt apogee.

Definition rc_file_hash : string := "d54e0ea4e6a3f5cc3c02a73b93260e992d9836d0".
Definition rc_str1 : string := "https://data.sdss.org/sas/dr17/apogee/vac/apogee-rc/cat/".
Definition rc_filename (dr : Z) : string := "apogee-rc-DR" +:+ PyStr.of_Z dr +:+ ".fits".
Definition rc_urlstr (dr : Z) : string := rc_str1 +:+ rc_filename dr.
Definition rc_fullfoldername : string :=
  OsPath.join OsPath.sep [apogee_env E; "dr17/apogee/vac/apogee-rc/cat/"].
Definition rc_fullfilename (dr : Z) : string :=
  OsPath.join OsPath.sep [rc_fullfoldername; rc_filename dr].

Definition distances_file_hash : string := "2502e2f7703046163f81ecc4054dce39b2038e4f".
Definition distances_str1 : string := "https://data.sdss.org/sas/dr17/apogee/vac/apogee-starhorse/".
Definition distances_filename : string := "APOGEE_DR17_EDR3_STARHORSE_v2.fits".
Definition distances_urlstr : string := distances_str1 +:+ distances_filename.
Definition distances_fullfoldername : string :=
  OsPath.join OsPath.sep [apogee_env E; "dr17/apogee/vac/apogee-starhorse/"].
Definition distances_fullfilename : string :=
  OsPath.join OsPath.sep [distances_fullfoldername; distances_filename].

(** *** Checksums read from a manifest *)

(** [hash_list[0][np.argwhere(hash_list[1] == filename)]]: the checksums of
    the rows whose file name is [filename]. *)
Definition combined_file_hash (hash_list : list (string * string)) (filename : string)
    : list string :=
  map fst (List.filter (fun row => bool_decide (snd row = filename)) hash_list).

Fixpoint enumerate_from {A} (i : nat) (l : list A) : list (nat * A) :=
  match l with
  | [] => []
  | x :: l' => (i, x) :: enumerate_from (S i) l'
  end.

(** [[i for i, item in enumerate(hash_list[1]) if pattern in item]] *)
Definition visit_hash_idx (hash_list : list (string * string)) (pattern : string) : list nat :=
  map fst (List.filter (fun ix => PyStr.contains pattern (snd ix))
             (enumerate_from 0 (map snd hash_list))).

(** [hash_list[0][hash_idx]] *)
Definition visit_file_hash (hash_list : list (string * string)) (hash_idx : list nat)
    : list string :=
  omap (fun i => map fst hash_list !! i) hash_idx.

(** The truth value Python takes of [checksum != file_hash] when
    [file_hash] is a numpy array of strings (numpy 1.x): the comparison is
    elementwise; an empty array is false, an array of one element is that
    element, a longer one raises. *)
Definition ne_truth (checksum : string) (file_hash : list string) : M bool :=
  match file_hash with
  | [] => ret false
  | [h] => ret (negb (bool_decide (checksum = h)))
  | _ =>
      raise (ValueError
        "The truth value of an array with more than one element is ambiguous. Use a.any() or a.all()")
  end.

(** [checksum != file_hash and len(file_hash) != 0] *)
Definition corrupted (checksum : string) (file_hash : list string) : M bool :=
  t <- ne_truth checksum file_hash ;;
  if t then ret (negb (Nat.eqb (length file_hash) 0)) else ret false.

(** *** The download functions

    Each call uses one level of the Python stack: [fuel] bounds the depth of
    the calls, and a call that would need more yields [Diverge].  The value
    of a recursive call is dropped, as in the source. *)

Fixpoint allstar (fuel : nat) (dr : option Z) (flag : option Z) {struct fuel} : M pyval :=
  match fuel with
  | O => diverge
  | S fuel =>
    let dr := apogee_default_dr E dr in
    if dr =? 17 then
      ensure_dir allstar_fullfoldername ;;
      (* check file integrity *)
      found <- isfile allstar_fullfilename ;;
      (if found && is_None flag then
         checksum <- filehash_of allstar_fullfilename ;;
         if negb (bool_decide (checksum = PyStr.lower allstar_file_hash)) then
           warn corruption_msg ;;
           allstar fuel (Some dr) (Some 1) ;;
           ret tt
         else
           logging_info (allstar_fullfilename +:+ " was found!")
       else ret tt) ;;
      (* Check if files exists *)
      found <- isfile (OsPath.join OsPath.sep [allstar_fullfoldername; allstar_filename]) ;;
      if negb found || eq_1 flag then
        try_except_HTTPError
          (urlretrieve allstar_url allstar_fullfilename ;;
           logging_info ("Downloaded DR" +:+ PyStr.of_Z dr +:+
                         " allStar file catalog successfully to " +:+ allstar_fullfilename) ;;
           checksum <- filehash_of allstar_fullfilename ;;
           (if negb (bool_decide (checksum = PyStr.lower allstar_file_hash)) then
              warn corruption_msg ;;
              allstar fuel (Some dr) (Some 1) ;;
              ret tt
            else ret tt) ;;
           ret (PStr allstar_fullfilename))
          (on_HTTPError allstar_url allstar_fullfilename)
      else ret (PStr allstar_fullfilename)
    else raise (ValueError "allstar() only supports APOGEE DR13-DR17")
  end.

Fixpoint apogee_astronn (fuel : nat) (dr : option Z) (flag : option Z) {struct fuel} : M pyval :=
  match fuel with
  | O => diverge
  | S fuel =>
    let dr := apogee_default_dr E dr in
    if dr =? 17 then
      ensure_dir astronn_fullfoldername ;;
      (* check file integrity *)
      found <- isfile astronn_fullfilename ;;
      (if found && is_None flag then
         checksum <- filehash_of astronn_fullfilename ;;
         if negb (bool_decide (checksum = PyStr.lower astronn_file_hash)) then
           warn corruption_msg ;;
           apogee_astronn fuel (Some dr) (Some 1) ;;
           ret tt
         else
           logging_info (astronn_fullfilename +:+ " was found!")
       else ret tt) ;;
      (* Check if files exists *)
      found <- isfile (OsPath.join OsPath.sep [astronn_fullfoldername; astronn_filename]) ;;
      if negb found || eq_1 flag then
        try_except_HTTPError
          (urlretrieve astronn_url astronn_fullfilename ;;
           logging_info ("Downloaded DR" +:+ PyStr.of_Z dr +:+
                         " apogee_astroNN file catalog successfully to " +:+ astronn_fullfilename) ;;
           checksum <- filehash_of astronn_fullfilename ;;
           (if negb (bool_decide (checksum = PyStr.lower astronn_file_hash)) then
              warn corruption_msg ;;
              apogee_astronn fuel (Some dr) (Some 1) ;;
              ret tt
            else ret tt) ;;
           ret (PStr astronn_fullfilename))
          (on_HTTPError astronn_url astronn_fullfilename)
      else ret (PStr astronn_fullfilename)
    else raise (ValueError "apogee_astroNN() only supports APOGEE DR16-DR17")
  end.

(** [allvisit] has no [try]: whatever [urlretrieve] raises leaves the function. *)
Fixpoint allvisit (fuel : nat) (dr : option Z) (flag : option Z) {struct fuel} : M pyval :=
  match fuel with
  | O => diverge
  | S fuel =>
    let dr := apogee_default_dr E dr in
    if dr =? 17 then
      ensure_dir allvisit_fullfilepath ;;
      (* check file integrity *)
      found <- isfile allvisit_fullfilename ;;
      if found && is_None flag then
        checksum <- filehash_of allvisit_fullfilename ;;
        (if negb (bool_decide (checksum = PyStr.lower allvisit_file_hash)) then
           warn corruption_msg ;;
           allvisit fuel (Some dr) (Some 1) ;;
           ret tt
         else
           logging_info (allvisit_fullfilename +:+ " was found!")) ;;
        ret (PStr allvisit_fullfilename)
      else
        found <- isfile (OsPath.join OsPath.sep [allvisit_fullfilepath; allvisit_filename]) ;;
        if negb found || eq_1 flag then
          urlretrieve allvisit_url allvisit_fullfilename ;;
          logging_info ("Downloaded DR" +:+ PyStr.of_Z dr +:+
                        " allVisit file catalog successfully to " +:+ allvisit_fullfilepath) ;;
          checksum <- filehash_of allvisit_fullfilename ;;
          (if negb (bool_decide (checksum = PyStr.lower allvisit_file_hash)) then
             warn corruption_msg ;;
             allvisit fuel (Some dr) (Some 1) ;;
             ret tt
           else ret tt) ;;
          ret (PStr allvisit_fullfilename)
        else ret (PStr allvisit_fullfilename)
    else raise (ValueError "allvisit() only supports APOGEE DR13-DR17")
  end.

(** The recursive calls of [combined_spectra] and [visit_spectra] pass
    [dr], [location], [apogee], [verbose] and [flag=1]; [field] and
    [telescope] (and [commission]) take their defaults. *)
Fixpoint combined_spectra (fuel : nat) (dr : option Z) (location : option Z)
    (field apogee telescope : option string) (verbose : Z) (flag : option Z)
    {struct fuel} : M pyval :=
  match fuel with
  | O => diverge
  | S fuel =>
    let dr := apogee_default_dr E dr in
    if dr =? 17 then
      let str1 := combined_str1 telescope field in
      let filename := combined_filename apogee in
      let hash_filename := combined_hash_filename telescope field in
      let urlstr := combined_urlstr telescope field apogee in
      (* check folder existence *)
      let fullfoldername := combined_fullfoldername dr telescope field in
      ensure_dir fullfoldername ;;
      let fullfilename := combined_fullfilename dr telescope field apogee in
      (* check hash file *)
      let full_hash_filename := combined_full_hash_filename dr telescope field in
      let rest : M pyval :=
        hash_list <- loadtxt_of full_hash_filename ;;
        let file_hash := combined_file_hash hash_list filename in
        found <- isfile fullfilename ;;
        if found && is_None flag then
          checksum <- filehash_of fullfilename ;;
          bad <- corrupted checksum file_hash ;;
          (if bad then
             warn corruption_msg ;;
             combined_spectra fuel (Some dr) location None apogee None verbose (Some 1) ;;
             ret tt
           else ret tt) ;;
          (if verbose =? 1 then logging_info (fullfilename +:+ " was found!") else ret tt) ;;
          ret (PStr fullfilename)
        else
          found <- isfile fullfilename ;;
          if negb found || eq_1 flag then
            try_except_HTTPError
              (urlretrieve urlstr fullfilename ;;
               logging_info ("Downloaded DR" +:+ PyStr.of_Z dr +:+
                             " combined file successfully to " +:+ fullfilename) ;;
               checksum <- filehash_of fullfilename ;;
               bad <- corrupted checksum file_hash ;;
               (if bad then
                  warn corruption_msg ;;
                  combined_spectra fuel (Some dr) location None apogee None verbose (Some 1) ;;
                  ret tt
                else ret tt) ;;
               ret (PStr fullfilename))
              (on_HTTPError urlstr fullfilename)
          else ret (PStr fullfilename)
      in
      have_hash <- isfile full_hash_filename ;;
      if negb have_hash then
        (* return warning flag if the location_id cannot even be found *)
        reachable <- try_except_HTTPError (urlopen str1 ;; ret true) (fun _ _ => ret false) ;;
        if reachable then
          urlretrieve (str1 +:+ hash_filename) full_hash_filename ;;
          rest
        else ret PFalse
      else rest
    else raise (ValueError "combined_spectra() only supports APOGEE DR13-DR17")
  end.

Fixpoint visit_spectra (fuel : nat) (dr : option Z) (location : option Z)
    (field apogee telescope : option string) (verbose : Z) (flag : option Z)
    (commission : bool) {struct fuel} : M pyval :=
  match fuel with
  | O => diverge
  | S fuel =>
    let dr := apogee_default_dr E dr in
    if dr =? 17 then
      let str1 := visit_str1 telescope field in
      let filename := visit_filename telescope apogee commission in
      let urlstr := visit_urlstr telescope field apogee commission in
      let hash_filename := visit_hash_filename telescope field in
      let fullfoldername := visit_fullfoldername dr telescope field in
      ensure_dir fullfoldername ;;
      (* check hash file *)
      let full_hash_filename := visit_full_hash_filename dr telescope field in
      let rest : M pyval :=
        hash_list <- loadtxt_of full_hash_filename ;;
        let fullfilename := visit_fullfilename dr telescope field apogee commission in
        (* visit spectra has a different filename in checksum *)
        let hash_idx := visit_hash_idx hash_list (visit_hash_pattern apogee) in
        let file_hash := visit_file_hash hash_list hash_idx in
        found <- isfile fullfilename ;;
        if found && is_None flag then
          checksum <- filehash_of fullfilename ;;
          bad <- corrupted checksum file_hash ;;
          (if bad then
             warn corruption_msg ;;
             visit_spectra fuel (Some dr) location None apogee None verbose (Some 1) false ;;
             ret tt
           else ret tt) ;;
          (if negb (verbose =? 0) then logging_info (fullfilename +:+ " was found!") else ret tt) ;;
          ret (PStr fullfilename)
        else
          found <- isfile fullfilename ;;
          if negb found || eq_1 flag then
            try_except_HTTPError
              (urlretrieve urlstr fullfilename ;;
               logging_info ("Downloaded DR" +:+ PyStr.of_Z dr +:+
                             " individual visit file successfully to " +:+ fullfilename) ;;
               checksum <- filehash_of fullfilename ;;
               bad <- corrupted checksum file_hash ;;
               (if bad then
                  warn corruption_msg ;;
                  visit_spectra fuel (Some dr) location None apogee None verbose (Some 1) false ;;
                  ret tt
                else ret tt) ;;
               ret (PStr fullfilename))
              (on_HTTPError urlstr fullfilename)
          else ret (PStr fullfilename)
      in
      have_hash <- isfile full_hash_filename ;;
      if negb have_hash then
        (* return warning flag if the location_id cannot even be found *)
        reachable <- try_except_HTTPError (urlopen str1 ;; ret true) (fun _ _ => ret false) ;;
        if reachable then
          urlretrieve (str1 +:+ hash_filename) full_hash_filename ;;
          rest
        else ret PFalse
      else rest
    else raise (ValueError "visit_spectra() only supports APOGEE DR13-DR17")
  end.

Fixpoint apogee_rc (fuel : nat) (dr : option Z) (flag : option Z) {struct fuel} : M pyval :=
  match fuel with
  | O => diverge
  | S fuel =>
    let dr := apogee_default_dr E dr in
    if dr =? 17 then
      let urlstr := rc_urlstr dr in
      ensure_dir rc_fullfoldername ;;
      let fullfilename := rc_fullfilename dr in
      (* check file integrity *)
      found <- isfile fullfilename ;;
      if found && is_None flag then
        checksum <- filehash_of fullfilename ;;
        (if negb (bool_decide (checksum = PyStr.lower rc_file_hash)) then
           warn corruption_msg ;;
           apogee_rc fuel (Some dr) (Some 1) ;;
           ret tt
         else
           logging_info (fullfilename +:+ " was found!")) ;;
        ret (PStr fullfilename)
      else
        found <- isfile fullfilename ;;
        if negb found || eq_1 flag then
          try_except_HTTPError
            (urlretrieve urlstr fullfilename ;;
             logging_info ("Downloaded DR" +:+ PyStr.of_Z dr +:+
                           " Red Clumps Catalog successfully to " +:+ fullfilename) ;;
             checksum <- filehash_of fullfilename ;;
             (if negb (bool_decide (checksum = PyStr.lower rc_file_hash)) then
                warn corruption_msg ;;
                apogee_rc fuel (Some dr) (Some 1) ;;
                ret tt
              else ret tt) ;;
             ret (PStr fullfilename))
            (on_HTTPError urlstr fullfilename)
        else ret (PStr fullfilename)
    else raise (ValueError "apogee_rc() only supports APOGEE DR13-DR17")
  end.

(** [apogee_distances] ends without a [return] statement: whatever
    [fullfilename] holds at the end, the call evaluates to [None]. *)
Fixpoint apogee_distances (fuel : nat) (dr : option Z) (flag : option Z) {struct fuel} : M pyval :=
  match fuel with
  | O => diverge
  | S fuel =>
    let dr := apogee_default_dr E dr in
    if dr =? 17 then
      let urlstr := distances_urlstr in
      ensure_dir distances_fullfoldername ;;
      let fullfilename := distances_fullfilename in
      fullfilename' <-
        ((* check file integrity *)
         found <- isfile fullfilename ;;
         if found && is_None flag then
           checksum <- filehash_of fullfilename ;;
           (if negb (bool_decide (checksum = PyStr.lower distances_file_hash)) then
              warn corruption_msg ;;
              apogee_distances fuel (Some dr) (Some 1) ;;
              ret tt
            else
              logging_info (fullfilename +:+ " was found!")) ;;
           ret (PStr fullfilename)
         else
           found <- isfile fullfilename ;;
           if negb found || eq_1 flag then
             try_except_HTTPError
               (urlretrieve urlstr fullfilename ;;
                logging_info ("Downloaded DR" +:+ PyStr.of_Z dr +:+
                              " Distances successfully to " +:+ fullfilename) ;;
                checksum <- filehash_of fullfilename ;;
                (if negb (bool_decide (checksum = PyStr.lower distances_file_hash)) then
                   warn corruption_msg ;;
                   apogee_distances fuel (Some dr) (Some 1) ;;
                   ret tt
                 else ret tt) ;;
                ret (PStr fullfilename))
               (fun _ _ =>
                  warn (urlstr +:+ " cannot be found on server, skipped") ;;
                  ret PFalse)
           else ret (PStr fullfilename)) ;;
      (* the function body ends here *)
      ret PNone
    else raise (ValueError "apogee_distances() only supports APOGEE DR14-DR17")
  end.

End Downloader.

(** ** The seven public functions under one roof *)

Inductive api :=
| Allstar
| ApogeeAstronn
| Allvisit
| CombinedSpectra
| VisitSpectra
| ApogeeRc
| ApogeeDistances.

(** The keyword arguments of a call.  The catalogue functions take [dr] and
    [flag] only and ignore the rest. *)
Record args := {
  dr : option Z;
  location : option Z;
  field : option string;
  apogee : option string;
  telescope : option string;
  verbose : Z;
  flag : option Z;
  commission : bool;
}.

Definition call (E : Env) (f : api) (fuel : nat) (a : args) : M pyval :=
  match f with
  | Allstar => allstar E fuel (dr a) (flag a)
  | ApogeeAstronn => apogee_astronn E fuel (dr a) (flag a)
  | Allvisit => allvisit E fuel (dr a) (flag a)
  | CombinedSpectra =>
      combined_spectra E fuel (dr a) (location a) (field a) (apogee a) (telescope a)
        (verbose a) (flag a)
  | VisitSpectra =>
      visit_spectra E fuel (dr a) (location a) (field a) (apogee a) (telescope a)
        (verbose a) (flag a) (commission a)
  | ApogeeRc => apogee_rc E fuel (dr a) (flag a)
  | ApogeeDistances => apogee_distances E fuel (dr a) (flag a)
  end.

(** The arguments of the corruption-recovery call each function makes on
    itself: [f(dr=dr, flag=1)] for the catalogues,
    [f(dr=dr, location=location, apogee=apogee, verbose=verbose, flag=1)]
    for the spectra, with [dr] already resolved to 17. *)
Definition rec_args (f : api) (a : args) : args :=
  match f with
  | CombinedSpectra | VisitSpectra =>
      {| dr := Some 17; location := location a; field := None; apogee := apogee a;
         telescope := None; verbose := verbose a; flag := Some 1; commission := false |}
  | _ =>
      {| dr := Some 17; location := location a; field := field a; apogee := apogee a;
         telescope := telescope a; verbose := verbose a; flag := Some 1;
         commission := commission a |}
  end.

(** [fullfilename] and the URL of the file, as the supported release computes them. *)
Definition local_path (E : Env) (f : api) (a : args) : string :=
  match f with
  | Allstar => allstar_fullfilename E
  | ApogeeAstronn => astronn_fullfilename E
  | Allvisit => allvisit_fullfilename E
  | CombinedSpectra => combined_fullfilename E 17 (telescope a) (field a) (apogee a)
  | VisitSpectra => visit_fullfilename E 17 (telescope a) (field a) (apogee a) (commission a)
  | ApogeeRc => rc_fullfilename E 17
  | ApogeeDistances => distances_fullfilename E
  end.

Definition remote_url (f : api) (a : args) : string :=
  match f with
  | Allstar => allstar_url
  | ApogeeAstronn => astronn_url
  | Allvisit => allvisit_url
  | CombinedSpectra => combined_urlstr (telescope a) (field a) (apogee a)
  | VisitSpectra => visit_urlstr (telescope a) (field a) (apogee a) (commission a)
  | ApogeeRc => rc_urlstr 17
  | ApogeeDistances => distances_urlstr
  end.

(** The checksum a catalogue is compared with ([file_hash.lower()]). *)
Definition fixed_hash (f : api) : string :=
  match f with
  | Allstar => PyStr.lower allstar_file_hash
  | ApogeeAstronn => PyStr.lower astronn_file_hash
  | Allvisit => PyStr.lower allvisit_file_hash
  | ApogeeRc => PyStr.lower rc_file_hash
  | ApogeeDistances => PyStr.lower distances_file_hash
  | CombinedSpectra | VisitSpectra => ""
  end.

Definition is_spectra (f : api) : bool :=
  match f with
  | CombinedSpectra | VisitSpectra => true
  | _ => false
  end.

(** For the spectra: the manifest of the directory, locally and remotely,
    the directory listing that is probed first, and the checksums
    [file_hash] the code selects from the rows of a manifest. *)
Definition manifest_path (E : Env) (f : api) (a : args) : string :=
  match f with
  | VisitSpectra => visit_full_hash_filename E 17 (telescope a) (field a)
  | _ => combined_full_hash_filename E 17 (telescope a) (field a)
  end.

Definition listing_url (f : api) (a : args) : string :=
  match f with
  | VisitSpectra => visit_str1 (telescope a) (field a)
  | _ => combined_str1 (telescope a) (field a)
  end.

Definition manifest_url (f : api) (a : args) : string :=
  match f with
  | VisitSpectra => visit_str1 (telescope a) (field a) +:+ visit_hash_filename (telescope a) (field a)
  | _ => combined_str1 (telescope a) (field a) +:+ combined_hash_filename (telescope a) (field a)
  end.

Definition manifest_file_hash (f : api) (a : args) (hash_list : list (string * string))
    : list string :=
  match f with
  | VisitSpectra =>
      visit_file_hash hash_list (visit_hash_idx hash_list (visit_hash_pattern (apogee a)))
  | _ => combined_file_hash hash_list (combined_filename (apogee a))
  end.

(** ** Notions the statements below are phrased in *)

(** The world [ensure_dir p] leaves. *)
Definition ensured (p : string) (w : world) : world :=
  set_dirs (fun d =>
    if (bool_decide (is_Some (fs w !! p)) || bool_decide (p ∈ d))%bool then d else {[p]} ∪ d) w.

(** The local copy [c] of the file agrees with its expected checksum. *)
Definition cache_valid (E : Env) (f : api) (a : args) (w : world) (c : string) : Prop :=
  if is_spectra f then
    exists mc rows, fs w !! manifest_path E f a = Some mc /\ loadtxt E mc = Some rows
                    /\ manifest_file_hash f a rows = [filehash E c]
  else filehash E c = fixed_hash f.




(** The functions whose handler passes a 401 on to [__apogee_credentials_downloader]. *)
Definition uses_credentials (f : api) : bool :=
  match f with
  | Allvisit | ApogeeDistances => false
  | _ => true
  end.

(** The call gets to download the file in its own frame: the file is
    forced or missing and, for the spectra, the manifest is on disk and
    readable. *)
Definition download_reached (E : Env) (f : api) (a : args) (w : world) : Prop :=
  (flag a = Some 1 \/ fs w !! local_path E f a = None)
  /\ (is_spectra f = true ->
      exists mc hash_list, fs w !! manifest_path E f a = Some mc /\ loadtxt E mc = Some hash_list).

Definition is_retrieve (ev : event) : bool :=
  match ev with
  | EvUrlretrieve _ _ => true
  | _ => false
  end.

Definition is_corruption_warning (ev : event) : bool :=
  match ev with
  | EvWarn msg => bool_decide (msg = corruption_msg)
  | _ => false
  end.

(** The answer of the remote to a re-fetch is neither a corrupt body again
    nor a request for credentials. *)
Definition clean_refetch (E : Env) (f : api) (resp : response) : Prop :=
  match resp with
  | RespOk c => filehash E c = fixed_hash f
  | RespHTTPError code msg => PyStr.contains "401" (str_HTTPError code msg) = false
  | RespURLError => True
  end.







(** Every file of [m] is still a file of [m']. *)
Definition kept (m m' : gmap string string) : Prop :=
  forall p, is_Some (m !! p) -> is_Some (m' !! p).

Definition files_kept (w : world) : res pyval -> world -> Prop :=
  fun _ w' => kept (fs w) (fs w').

(** [fullfoldername] (for [allvisit]: [fullfilepath]). *)
Definition local_folder (E : Env) (f : api) (a : args) : string :=
  match f with
  | Allstar => allstar_fullfoldername E
  | ApogeeAstronn => astronn_fullfoldername E
  | Allvisit => allvisit_fullfilepath E
  | CombinedSpectra => combined_fullfoldername E 17 (telescope a) (field a)
  | VisitSpectra => visit_fullfoldername E 17 (telescope a) (field a)
  | ApogeeRc => rc_fullfoldername E
  | ApogeeDistances => distances_fullfoldername E
  end.

(** What each function logs after a download. *)
Definition downloaded_msg (E : Env) (f : api) (a : args) : string :=
  match f with
  | Allstar =>
      "Downloaded DR" +:+ PyStr.of_Z 17 +:+ " allStar file catalog successfully to " +:+
      allstar_fullfilename E
  | ApogeeAstronn =>
      "Downloaded DR" +:+ PyStr.of_Z 17 +:+ " apogee_astroNN file catalog successfully to " +:+
      astronn_fullfilename E
  | Allvisit =>
      "Downloaded DR" +:+ PyStr.of_Z 17 +:+ " allVisit file catalog successfully to " +:+
      allvisit_fullfilepath E
  | CombinedSpectra =>
      "Downloaded DR" +:+ PyStr.of_Z 17 +:+ " combined file successfully to " +:+
      combined_fullfilename E 17 (telescope a) (field a) (apogee a)
  | VisitSpectra =>
      "Downloaded DR" +:+ PyStr.of_Z 17 +:+ " individual visit file successfully to " +:+
      visit_fullfilename E 17 (telescope a) (field a) (apogee a) (commission a)
  | ApogeeRc =>
      "Downloaded DR" +:+ PyStr.of_Z 17 +:+ " Red Clumps Catalog successfully to " +:+
      rc_fullfilename E 17
  | ApogeeDistances =>
      "Downloaded DR" +:+ PyStr.of_Z 17 +:+ " Distances successfully to " +:+
      distances_fullfilename E
  end.

(** The checksum of the content [c] is not the one expected for the file. *)
Definition mismatch (E : Env) (f : api) (a : args) (w : world) (c : string) : Prop :=
  if is_spectra f then
    exists mc hash_list h,
      fs w !! manifest_path E f a = Some mc /\ loadtxt E mc = Some hash_list
      /\ manifest_file_hash f a hash_list = [h] /\ filehash E c <> h
  else filehash E c <> fixed_hash f.

(** [recovery_call E f a w w_rec]: in the call of [f] on [a] from [w] a
    checksum mismatch triggers the corruption-recovery call, which starts
    in [w_rec]: either the local copy is found corrupt, or the file just
    downloaded is. *)
Inductive recovery_call (E : Env) (f : api) (a : args) (w : world) : world -> Prop :=
| recovery_on_disk (c : string) :
    flag a = None ->
    fs w !! local_path E f a = Some c ->
    mismatch E f a w c ->
    recovery_call E f a w (emit (EvWarn corruption_msg) (ensured (local_folder E f a) w))
| recovery_after_download (c : string) :
    flag a = Some 1 \/ fs w !! local_path E f a = None ->
    server E (nreq w) (remote_url f a) = RespOk c ->
    mismatch E f a w c ->
    recovery_call E f a w
      (emit (EvWarn corruption_msg)
         (emit (EvInfo (downloaded_msg E f a))
            (set_fs (fun m => <[local_path E f a := c]> m)
               (tick_req
                  (emit (EvUrlretrieve (remote_url f a) (local_path E f a))
                     (ensured (local_folder E f a) w)))))).





(** The trace [t'] continues [t] by events that satisfy [P]. *)
Definition extends_by (P : event -> Prop) (t t' : list event) : Prop :=
  exists new, t' = new ++ t /\ Forall P new.



(** ["/" not in s] *)
Definition slash_free (s : string) : Prop := PyStr.contains OsPath.sep s = false.

(** What [os.path.join] puts after a component before the next one. *)
Definition sep_unless_empty (s : string) : string :=
  if bool_decide (s = "") then "" else "/".

(** What follows the fixed part of the local path of a combined spectrum
    and of a visit spectrum. *)
Definition combined_tail (T F fn : string) : string :=
  T +:+ sep_unless_empty T +:+ F +:+ sep_unless_empty F +:+ fn.

Definition visit_tail (T F fn : string) : string :=
  T +:+ "/" +:+ F +:+ sep_unless_empty F +:+ fn.

(** The texts of [telescope] and [field] are both ["None"], as they are for
    the arguments left out of the recovery call. *)
Definition both_none (a : args) : Prop :=
  PyStr.fmt (telescope a) = "None" /\ PyStr.fmt (field a) = "None".

(** The trace of [w1] is continued by the run. *)
Definition continues (w1 : world) : res pyval -> world -> Prop :=
  fun _ w' => extends_by (fun _ => True) (trace w1) (trace w').

(** ** Notions of the further properties *)

(** The message of the [ValueError] each function raises for a release it
    does not support. *)
Definition unsupported_msg (f : api) : string :=
  match f with
  | Allstar => "allstar() only supports APOGEE DR13-DR17"
  | ApogeeAstronn => "apogee_astroNN() only supports APOGEE DR16-DR17"
  | Allvisit => "allvisit() only supports APOGEE DR13-DR17"
  | CombinedSpectra => "combined_spectra() only supports APOGEE DR13-DR17"
  | VisitSpectra => "visit_spectra() only supports APOGEE DR13-DR17"
  | ApogeeRc => "apogee_rc() only supports APOGEE DR13-DR17"
  | ApogeeDistances => "apogee_distances() only supports APOGEE DR14-DR17"
  end.

(** The file is forced or missing. *)
Definition to_download (E : Env) (f : api) (a : args) (w : world) : Prop :=
  flag a = Some 1 \/ fs w !! local_path E f a = None.

(** What is logged when a valid local copy is found: the catalogues always
    log, [combined_spectra] when [verbose == 1], [visit_spectra] when
    [verbose] is true. *)
Definition found_log (E : Env) (f : api) (a : args) (w : world) : world :=
  let logged := emit (EvInfo (local_path E f a +:+ " was found!")) w in
  match f with
  | CombinedSpectra => if verbose a =? 1 then logged else w
  | VisitSpectra => if negb (verbose a =? 0) then logged else w
  | _ => logged
  end.

(** The world after the file was fetched with body [c] and logged. *)
Definition downloaded (E : Env) (f : api) (a : args) (c : string) (w : world) : world :=
  emit (EvInfo (downloaded_msg E f a))
    (set_fs (fun m => <[local_path E f a := c]> m)
       (tick_req (emit (EvUrlretrieve (remote_url f a) (local_path E f a))
          (ensured (local_folder E f a) w)))).

(** The world after a request for the file was refused. *)
Definition refused (E : Env) (f : api) (a : args) (w : world) : world :=
  tick_req (emit (EvUrlretrieve (remote_url f a) (local_path E f a))
    (ensured (local_folder E f a) w)).

(** The warning of the handler for an HTTP error that is not taken for a 401. *)
Definition failure_warning (url : string) (code : Z) (msg : string) : string :=
  if PyStr.contains "404" (str_HTTPError code msg)
  then url +:+ " cannot be found on server, skipped"
  else "Unknown error occurred - " +:+ str_HTTPError code msg.

(** What [__apogee_credentials_downloader] prints before it asks. *)
Definition credentials_notice : string :=
  "
You are trying to access APOGEE proprietary data...Please provide username and password...".

(** What is printed to or asked at the terminal. *)
Definition is_prompt (ev : event) : bool :=
  match ev with
  | EvPrompt _ | EvPrint _ => true
  | _ => false
  end.

(** The world after the user was asked for a username and a password and
    both were stored in the globals. *)
Definition asked (E : Env) (w : world) : world :=
  set_credentials (Some (stdin E (nin w))) (Some (stdin E (S (nin w))))
    (tick_in (emit (EvPrompt "Password: ")
       (tick_in (emit (EvPrompt "Username: ") (emit (EvPrint credentials_notice) w))))).

(** Credentials are asked for when no username is cached, and only then. *)
Definition with_credentials (E : Env) (w : world) : world :=
  match credentials_username w with
  | None => asked E w
  | Some _ => w
  end.

(** The world after [__apogee_credentials_downloader] requested [url] for
    [path]. *)
Definition retried (E : Env) (url path : string) (w : world) : world :=
  tick_req (emit (EvUrlretrieve url path) (ensured (OsPath.dirname path) (with_credentials E w))).

(** The answer is not an HTTP error that is taken for a 401. *)
Definition not_401 (resp : response) : Prop :=
  match resp with
  | RespHTTPError code msg => PyStr.contains "401" (str_HTTPError code msg) = false
  | _ => True
  end.

Definition ambiguous_msg : string :=
  "The truth value of an array with more than one element is ambiguous. Use a.any() or a.all()".

(** The world after the listing of the directory was probed. *)
Definition probed (E : Env) (f : api) (a : args) (w : world) : world :=
  tick_req (emit (EvUrlopen (listing_url f a)) (ensured (local_folder E f a) w)).

(** The paths the call on [a] itself writes to: its file and, for the
    spectra, the manifest of the directory. *)
Definition written (E : Env) (f : api) (a : args) (p : string) : Prop :=
  p = local_path E f a \/ (is_spectra f = true /\ p = manifest_path E f a).

(** The paths the call or its corruption-recovery calls write to. *)
Definition may_write (E : Env) (f : api) (a : args) (p : string) : Prop :=
  written E f a p \/ written E f (rec_args f a) p.

(** The files of [m'] are those of [m] outside [P]. *)
Definition same_elsewhere (P : string -> Prop) (m m' : gmap string string) : Prop :=
  forall p, ~ P p -> m' !! p = m !! p.

Definition files_framed (E : Env) (f : api) (a : args) (w : world)
    : res pyval -> world -> Prop :=
  fun _ w' => same_elsewhere (may_write E f a) (fs w) (fs w').

(** The directories the spectra are stored below. *)
Definition combined_root (E : Env) : string :=
  OsPath.join OsPath.sep [apogee_env E; "dr17/apogee/spectro/aspcap/dr17/synspec/"].

Definition visit_root (E : Env) : string :=
  OsPath.join OsPath.sep [apogee_env E; "dr17/apogee/spectro/redux/dr17/stars/"].

(** The rows of a manifest that [visit_spectra] selects for a pattern. *)
Definition selected (pattern : string) (row : string * string) : bool :=
  PyStr.contains pattern (snd row).

(** The last character of a text. *)
Fixpoint last_char (s : string) : option ascii :=
  match s with
  | EmptyString => None
  | String c EmptyString => Some c
  | String _ s' => last_char s'
  end.

(** The arguments [a] with another [location]. *)
Definition with_location (l : option Z) (a : args) : args :=
  {| dr := dr a; location := l; field := field a; apogee := apogee a;
     telescope := telescope a; verbose := verbose a; flag := flag a;
     commission := commission a |}.

(** ** A concrete environment to run the functions in *)

Module Sample.

(** File contents are taken to be their own checksum, and a manifest is a
    text of lines ["checksum name"] separated by [";"]. *)
Fixpoint split_on (c : ascii) (acc s : string) : list string :=
  match s with
  | EmptyString => [String.rev acc]
  | String a s' =>
      if Ascii.eqb a c then String.rev acc :: split_on c EmptyString s'
      else split_on c (String a acc) s'
  end.

Definition parse_row (line : string) : option (string * string) :=
  match split_on " " EmptyString line with
  | [h; n] => Some (h, n)
  | _ => None
  end.

Definition parse_manifest (c : string) : option (list (string * string)) :=
  mapM parse_row (split_on ";" EmptyString c).

Definition default_dr (dr : option Z) : Z :=
  match dr with
  | None => 17
  | Some d => d
  end.

Definition env (srv : nat -> string -> response) : Env :=
  {| apogee_env := "/sas";
     apogee_default_dr := default_dr;
     filehash := fun c => c;
     loadtxt := parse_manifest;
     server := srv;
     stdin := fun n => if Nat.even n then "user" else "secret" |}.

Definition world0 (files : list (string * string)) : world :=
  {| fs := list_to_map files; dirs := ∅;
     credentials_username := None; credentials_pw := None;
     nreq := 0; nin := 0; trace := [] |}.

End Sample.

(** ** Remotes, arguments and files used in the examples *)

Module Scenario.

Definition mk_args (dr0 : option Z) (field0 apogee0 telescope0 : option string)
    (flag0 : option Z) : args :=
  {| dr := dr0; location := None; field := field0; apogee := apogee0;
     telescope := telescope0; verbose := 1; flag := flag0; commission := false |}.

Definition catalog_args : args := mk_args None None None None None.

(** A remote on which nothing exists. *)
Definition not_found : nat -> string -> response := fun _ _ => RespHTTPError 404 "Not Found".

(** A remote that asks for credentials and never accepts them. *)
Definition unauthorized : nat -> string -> response :=
  fun _ _ => RespHTTPError 401 "Unauthorized".

(** A remote that hands out the same body for every request. *)
Definition always (body : string) : nat -> string -> response := fun _ _ => RespOk body.

(** A remote that answers the requests of the process in turn with the
    bodies of [bodies], then with [last]. *)
Definition in_turn (bodies : list string) (last : string) : nat -> string -> response :=
  fun n _ => RespOk (nth n bodies last).

Definition allstar_path : string :=
  "/sas/dr17/apogee/spectro/aspcap/dr17/synspec/allStar-dr17-synspec.fits".

Definition star : args := mk_args (Some 17) (Some "M13") (Some "2M0") (Some "apo25m") None.

Definition star_path : string :=
  "/sas/dr17/apogee/spectro/aspcap/dr17/synspec/apo25m/M13/aspcapStar-dr17-2M0.fits".

Definition manifest_text : string :=
  "abc aspcapStar-dr17-2M0.fits;def aspcapStar-dr17-2M1.fits".

Definition manifest_rows : list (string * string) :=
  [("abc", "aspcapStar-dr17-2M0.fits"); ("def", "aspcapStar-dr17-2M1.fits")].

Definition star_manifest_path : string :=
  "/sas/dr17/apogee/spectro/aspcap/dr17/synspec/apo25m/M13/dr17_synspec_apo25m_M13.sha1sum".

Definition visit_star : args := mk_args (Some 17) (Some "M13") (Some "2M1") (Some "apo25m") None.

Definition visit_manifest_path : string :=
  "/sas/dr17/apogee/spectro/redux/dr17/stars/apo25m/M13/dr17_stars_apo25m_M13.sha1sum".

Definition visit_star_path : string :=
  "/sas/dr17/apogee/spectro/redux/dr17/stars/apo25m/M13/apStar-dr17-2M1.fits".


End Scenario.

(** ** A remote that only delivers corrupt bodies *)

Module Unbounded.

(** A remote whose every body is corrupt, and a disk that holds the
    manifests of the directory the recursive calls of the spectra use. *)
Definition E : Env := Sample.env (Scenario.always "corrupt").

Definition a : args := Scenario.mk_args (Some 17) None (Some "2M0") None (Some 1).

Definition manifest (f : api) : string :=
  match f with
  | VisitSpectra => "abc apStar-dr17-2M0.fits"
  | _ => "abc aspcapStar-dr17-2M0.fits"
  end.

Definition w : world :=
  Sample.world0
    [(manifest_path E CombinedSpectra a, manifest CombinedSpectra);
     (manifest_path E VisitSpectra a, manifest VisitSpectra)].

Definition rows (f : api) : list (string * string) :=
  match f with
  | VisitSpectra => [("abc", "apStar-dr17-2M0.fits")]
  | _ => [("abc", "aspcapStar-dr17-2M0.fits")]
  end.

End Unbounded.

(** ** A remote that answers request after request *)

Module Replay.

(** The requests of the process are answered in turn by [answers], then by
    [last]. *)
Definition in_order (answers : list response) (last : response) : nat -> string -> response :=
  fun n _ => nth n answers last.

(** A remote that cannot be reached. *)
Definition unreachable : nat -> string -> response := fun _ _ => RespURLError.

(** A flag that is neither [None] nor 1. *)
Definition unforced : args := Scenario.mk_args None None None None (Some 0).

(** A manifest in which two rows contain the name of the spectrum of
    [Scenario.visit_star]. *)
Definition two_rows : string := "abc apStar-dr17-2M1.fits;def apStar-dr17-2M10.fits".




End Replay.

(** ** Reasoning about runs

    [wp m Q w]: running [m] from [w] ends in a result and a world that
    satisfy [Q].  The rules below follow the constructs of the monad, so a
    run is traced statement by statement. *)

Definition wp {A} (m : M A) (Q : res A -> world -> Prop) (w : world) : Prop :=
  Q (m w).1 (m w).2.

Definition bind_post {A B} (k : A -> M B) (Q : res B -> world -> Prop)
    : res A -> world -> Prop :=
  fun r w =>
    match r with
    | Ret a => wp (k a) Q w
    | Raise e => Q (Raise e) w
    | Diverge => Q Diverge w
    end.

Definition try_post {A} (h : Z -> string -> M A) (Q : res A -> world -> Prop)
    : res A -> world -> Prop :=
  fun r w =>
    match r with
    | Raise (HTTPError code msg) => wp (h code msg) Q w
    | _ => Q r w
    end.

Section Rules.

Context {A B : Type}.
Implicit Types (Q : res B -> world -> Prop) (w : world).

Lemma wp_run (m : M B) Q w : wp m Q w <-> forall r w', m w = (r, w') -> Q r w'.
Proof.
  unfold wp. split.
  - intros H r w' Hm. rewrite Hm in H. exact H.
  - intros H. apply H. destruct (m w); reflexivity.
Qed.

Lemma wp_conseq (m : M A) (P Q' : res A -> world -> Prop) w :
  wp m P w -> (forall r w', P r w' -> Q' r w') -> wp m Q' w.
Proof. unfold wp. auto. Qed.

Lemma wp_bind (m : M A) (k : A -> M B) Q w :
  wp m (bind_post k Q) w -> wp (bind m k) Q w.
Proof. unfold wp, bind, bind_post. destruct (m w) as [[a|e|] w']; auto. Qed.

Lemma wp_try (m : M B) h Q w :
  wp m (try_post h Q) w -> wp (try_except_HTTPError m h) Q w.
Proof.
  unfold wp, try_except_HTTPError, try_post.
  destruct (m w) as [[a|[]|] w']; auto.
Qed.

Lemma wp_ret (b : B) Q w : Q (Ret b) w -> wp (ret b) Q w.
Proof. auto. Qed.

Lemma wp_raise e Q w : Q (Raise e) w -> wp (raise e) Q w.
Proof. auto. Qed.

Lemma wp_diverge Q w : Q Diverge w -> wp diverge Q w.
Proof. auto. Qed.

End Rules.

Lemma wp_is_run {A} (m : M A) (Q : res A -> world -> Prop) w r w' :
  m w = (r, w') -> Q r w' -> wp m Q w.
Proof. unfold wp. intros ->. auto. Qed.


Section PrimitiveRules.

Variable E : Env.
Implicit Types (w : world).

Lemma ensure_dir_run p w : ensure_dir p w = (Ret tt, ensured p w).
Proof.
  unfold ensure_dir, ensured, bind, path_exists, makedirs, modify, ret, set_dirs.
  destruct (_ || _)%bool; simpl; [destruct w|]; reflexivity.
Qed.

Lemma wp_modify f (Q : res unit -> world -> Prop) w :
  Q (Ret tt) (f w) -> wp (modify f) Q w.
Proof. auto. Qed.

Lemma wp_isfile p (Q : res bool -> world -> Prop) w :
  Q (Ret (bool_decide (is_Some (fs w !! p)))) w -> wp (isfile p) Q w.
Proof. auto. Qed.

Lemma wp_ensure_dir p (Q : res unit -> world -> Prop) w :
  Q (Ret tt) (ensured p w) -> wp (ensure_dir p) Q w.
Proof. unfold wp. rewrite ensure_dir_run. auto. Qed.

Lemma wp_filehash_of p (Q : res string -> world -> Prop) w :
  match fs w !! p with
  | Some c => Q (Ret (filehash E c)) w
  | None => Q (Raise (FileNotFoundError p)) w
  end -> wp (filehash_of E p) Q w.
Proof. unfold wp, filehash_of. destruct (fs w !! p); auto. Qed.

Lemma wp_loadtxt_of p (Q : res (list (string * string)) -> world -> Prop) w :
  match fs w !! p with
  | Some c =>
      match loadtxt E c with
      | Some rows => Q (Ret rows) w
      | None => Q (Raise LoadtxtError) w
      end
  | None => Q (Raise (FileNotFoundError p)) w
  end -> wp (loadtxt_of E p) Q w.
Proof. unfold wp, loadtxt_of. destruct (fs w !! p); [destruct (loadtxt E _)|]; auto. Qed.

Lemma wp_urlretrieve url path (Q : res unit -> world -> Prop) w :
  match server E (nreq w) url with
  | RespOk c =>
      Q (Ret tt) (set_fs (fun f => <[path := c]> f) (tick_req (emit (EvUrlretrieve url path) w)))
  | RespHTTPError code msg =>
      Q (Raise (HTTPError code msg)) (tick_req (emit (EvUrlretrieve url path) w))
  | RespURLError => Q (Raise URLError) (tick_req (emit (EvUrlretrieve url path) w))
  end -> wp (urlretrieve E url path) Q w.
Proof. unfold wp, urlretrieve. destruct (server E (nreq w) url); auto. Qed.

Lemma wp_urlopen url (Q : res unit -> world -> Prop) w :
  match server E (nreq w) url with
  | RespOk c => Q (Ret tt) (tick_req (emit (EvUrlopen url) w))
  | RespHTTPError code msg => Q (Raise (HTTPError code msg)) (tick_req (emit (EvUrlopen url) w))
  | RespURLError => Q (Raise URLError) (tick_req (emit (EvUrlopen url) w))
  end -> wp (urlopen E url) Q w.
Proof. unfold wp, urlopen. destruct (server E (nreq w) url); auto. Qed.

Lemma wp_read_username (Q : res (option string) -> world -> Prop) w :
  Q (Ret (credentials_username w)) w -> wp read_username Q w.
Proof. auto. Qed.

Lemma wp_input prompt (Q : res string -> world -> Prop) w :
  Q (Ret (stdin E (nin w))) (tick_in (emit (EvPrompt prompt) w)) -> wp (input E prompt) Q w.
Proof. auto. Qed.

Lemma wp_ne_truth checksum file_hash (Q : res bool -> world -> Prop) w :
  match file_hash with
  | [] => Q (Ret false) w
  | [h] => Q (Ret (negb (bool_decide (checksum = h)))) w
  | _ => forall msg, Q (Raise (ValueError msg)) w
  end -> wp (ne_truth checksum file_hash) Q w.
Proof. unfold wp, ne_truth. destruct file_hash as [|h [|h' t]]; intros H; try apply H; exact H. Qed.

End PrimitiveRules.

Section PostRules.

Context {A B : Type}.
Implicit Types (Q : res B -> world -> Prop) (w : world).

Lemma bind_post_ret (k : A -> M B) Q a w : wp (k a) Q w -> bind_post k Q (Ret a) w.
Proof. auto. Qed.

Lemma bind_post_raise (k : A -> M B) Q e w : Q (Raise e) w -> bind_post k Q (Raise e) w.
Proof. auto. Qed.

Lemma bind_post_diverge (k : A -> M B) Q w : Q Diverge w -> bind_post k Q Diverge w.
Proof. auto. Qed.

Lemma try_post_ret h Q (b : B) w : Q (Ret b) w -> try_post h Q (Ret b) w.
Proof. auto. Qed.

Lemma try_post_HTTPError h Q code msg w :
  wp (h code msg) Q w -> try_post h Q (Raise (HTTPError code msg)) w.
Proof. auto. Qed.

Lemma try_post_diverge h Q w : Q Diverge w -> try_post h Q Diverge w.
Proof. auto. Qed.

Lemma try_post_raise h Q e w :
  match e with
  | HTTPError code msg => wp (h code msg) Q w
  | _ => Q (Raise e) w
  end -> try_post h Q (Raise e) w.
Proof. destruct e; auto. Qed.

End PostRules.

(** ** Automation: tracing a run under hypotheses *)

Lemma is_Some_Some_true {A} (x : A) : bool_decide (is_Some (Some x)) = true.
Proof. apply bool_decide_eq_true_2. eauto. Qed.
Lemma is_Some_None_false {A} : bool_decide (is_Some (@None A)) = false.
Proof. apply bool_decide_eq_false_2. intros [x Hx]. discriminate. Qed.
Lemma bool_decide_refl {A} `{EqDecision A} (x : A) : bool_decide (x = x) = true.
Proof. apply bool_decide_eq_true_2. reflexivity. Qed.

Lemma contains_401 msg : PyStr.contains "401" (str_HTTPError 401 msg) = true.
Proof. reflexivity. Qed.

Ltac fold_paths E :=
  try fold (allstar_fullfilename E);
  try fold (astronn_fullfilename E);
  try fold (allvisit_fullfilename E).

Ltac use_hyps :=
  repeat match goal with
  | H : fs ?w !! ?p = _ |- context [fs ?w !! ?p] => rewrite H
  | H : server ?E ?n ?u = _ |- context [server ?E ?n ?u] => rewrite H
  | H : apogee_default_dr ?E ?d = _ |- context [apogee_default_dr ?E ?d] => rewrite H
  | H : loadtxt ?E ?c = _ |- context [loadtxt ?E ?c] => rewrite H
  | H : filehash ?E ?c = _ |- context [filehash ?E ?c] => rewrite H
  | H : flag ?a = _ |- context [flag ?a] => rewrite H
  | H : combined_file_hash ?r ?n = _ |- context [combined_file_hash ?r ?n] => rewrite H
  | H : visit_file_hash ?r ?n = _ |- context [visit_file_hash ?r ?n] => rewrite H
  end.

Ltac use_more :=
  repeat match goal with
  | H : ?x <> ?y |- context [bool_decide (?x = ?y)] => rewrite (bool_decide_eq_false_2 _ H)
  | H : PyStr.contains ?p ?s = _ |- context [PyStr.contains ?p ?s] => rewrite H
  end.

Ltac wp_red :=
  cbn [fs dirs trace nreq nin credentials_username credentials_pw
       emit set_fs set_dirs tick_req tick_in set_credentials ensured].

(** Deciding a condition from what is known. *)
Ltac wp_simp0 :=
  wp_red; use_hyps; use_more;
  rewrite ?is_Some_Some_true, ?(@is_Some_None_false string), ?bool_decide_refl, ?lookup_insert_eq, ?Z.eqb_refl,
    ?andb_false_r, ?orb_true_r, ?contains_401;
  cbn [is_None eq_1 andb orb negb Z.eqb Pos.eqb length Nat.eqb].

Ltac wp_simp E := fold_paths E; wp_simp0.

(** One statement of the program. *)
Ltac wp_step E :=
  lazymatch goal with
  | |- bind_post _ _ (Ret _) _ => apply bind_post_ret; cbv beta
  | |- bind_post _ _ (Raise _) _ => apply bind_post_raise
  | |- bind_post _ _ Diverge _ => apply bind_post_diverge
  | |- try_post _ _ (Ret _) _ => apply try_post_ret
  | |- try_post _ _ (Raise (HTTPError _ _)) _ => apply try_post_HTTPError; cbv beta
  | |- try_post _ _ (Raise URLError) _ => apply try_post_raise; cbv iota
  | |- try_post _ _ (Raise (ValueError _)) _ => apply try_post_raise; cbv iota
  | |- try_post _ _ (Raise (ConnectionError _)) _ => apply try_post_raise; cbv iota
  | |- try_post _ _ (Raise (FileNotFoundError _)) _ => apply try_post_raise; cbv iota
  | |- try_post _ _ (Raise LoadtxtError) _ => apply try_post_raise; cbv iota
  | |- try_post _ _ Diverge _ => apply try_post_diverge
  | |- wp (bind _ _) _ _ => apply wp_bind
  | |- wp (try_except_HTTPError _ _) _ _ => apply wp_try
  | |- wp (ret _) _ _ => apply wp_ret
  | |- wp (raise _) _ _ => apply wp_raise
  | |- wp diverge _ _ => apply wp_diverge
  | |- wp (modify _) _ _ => apply wp_modify
  | |- wp (warn _) _ _ => apply wp_modify
  | |- wp (logging_info _) _ _ => apply wp_modify
  | |- wp (print _) _ _ => apply wp_modify
  | |- wp (isfile _) _ _ => apply wp_isfile
  | |- wp (ensure_dir _) _ _ => apply wp_ensure_dir
  | |- wp (filehash_of _ _) _ _ => apply (wp_filehash_of E)
  | |- wp (loadtxt_of _ _) _ _ => apply (wp_loadtxt_of E)
  | |- wp (urlretrieve _ _ _) _ _ => apply (wp_urlretrieve E)
  | |- wp (urlopen _ _) _ _ => apply (wp_urlopen E)
  | |- wp (input _ _) _ _ => apply (wp_input E)
  | |- wp (corrupted _ _) _ _ => unfold corrupted
  | |- wp (ne_truth _ _) _ _ => apply wp_ne_truth
  | |- wp (on_HTTPError _ _ _ _ _) _ _ => unfold on_HTTPError; cbv zeta
  | |- wp (credentials_downloader _ _ _) _ _ => unfold credentials_downloader
  | |- wp read_username _ _ => apply wp_read_username
  | |- wp (if _ then _ else _) _ _ =>
      wp_simp E;
      lazymatch goal with
      | |- wp (if ?b then _ else _) _ _ => destruct b eqn:?
      | |- _ => idtac
      end
  | |- wp (match _ with _ => _ end) _ _ =>
      wp_simp E;
      lazymatch goal with
      | |- wp (match ?o with _ => _ end) _ _ => destruct o eqn:?
      | |- _ => idtac
      end
  | |- match _ with _ => _ end =>
      wp_simp E;
      lazymatch goal with
      | |- match ?o with _ => _ end => destruct o eqn:?
      | |- _ => idtac
      end
  | |- forall msg : string, _ => intros ?
  end.

(** Entering a call that has stack left. *)
Ltac wp_unfold :=
  lazymatch goal with
  | |- wp (allstar _ (S _) _ _) _ _ => cbn [allstar]
  | |- wp (apogee_astronn _ (S _) _ _) _ _ => cbn [apogee_astronn]
  | |- wp (allvisit _ (S _) _ _) _ _ => cbn [allvisit]
  | |- wp (apogee_rc _ (S _) _ _) _ _ => cbn [apogee_rc]; cbv zeta
  | |- wp (apogee_distances _ (S _) _ _) _ _ => cbn [apogee_distances]; cbv zeta
  | |- wp (combined_spectra _ (S _) _ _ _ _ _ _ _) _ _ => cbn [combined_spectra]; cbv zeta
  | |- wp (visit_spectra _ (S _) _ _ _ _ _ _ _ _) _ _ => cbn [visit_spectra]; cbv zeta
  end.

Ltac wp_go E := repeat wp_step E.

Ltac wp_deep E := repeat first [wp_step E | wp_unfold].

Ltac wp_done :=
  cbv beta iota delta [bind_post try_post]; wp_simp0; repeat split; intros;
  try reflexivity; try congruence; try discriminate; try apply lookup_insert_eq.

(** Reading a recursive call of the source as a [call] on [rec_args]. *)
Ltac as_call a :=
  lazymatch goal with
  | |- wp (allstar ?E ?n (Some 17) (Some 1)) ?Q ?w =>
      change (wp (call E Allstar n (rec_args Allstar a)) Q w)
  | |- wp (apogee_astronn ?E ?n (Some 17) (Some 1)) ?Q ?w =>
      change (wp (call E ApogeeAstronn n (rec_args ApogeeAstronn a)) Q w)
  | |- wp (allvisit ?E ?n (Some 17) (Some 1)) ?Q ?w =>
      change (wp (call E Allvisit n (rec_args Allvisit a)) Q w)
  | |- wp (apogee_rc ?E ?n (Some 17) (Some 1)) ?Q ?w =>
      change (wp (call E ApogeeRc n (rec_args ApogeeRc a)) Q w)
  | |- wp (apogee_distances ?E ?n (Some 17) (Some 1)) ?Q ?w =>
      change (wp (call E ApogeeDistances n (rec_args ApogeeDistances a)) Q w)
  | |- wp (combined_spectra ?E ?n (Some 17) _ None _ None _ (Some 1)) ?Q ?w =>
      change (wp (call E CombinedSpectra n (rec_args CombinedSpectra a)) Q w)
  | |- wp (visit_spectra ?E ?n (Some 17) _ None _ None _ (Some 1) false) ?Q ?w =>
      change (wp (call E VisitSpectra n (rec_args VisitSpectra a)) Q w)
  end.

Ltac dr_known :=
  repeat match goal with
  | H : (?x =? 17) = true |- _ => apply Z.eqb_eq in H; try rewrite H in *
  end.


Ltac wp_stepx E :=
  first [ wp_step E
        | lazymatch goal with
          | |- try_post _ _ (Raise ?e) _ => apply try_post_raise; destruct e
          end ].

(** ** Facts about Python strings *)

Module StrFacts.

Lemma app_String c s t : String c s +:+ t = String c (s +:+ t).
Proof. reflexivity. Qed.

Lemma app_Empty t : "" +:+ t = t.
Proof. reflexivity. Qed.

Lemma app_assoc s t u : (s +:+ t) +:+ u = s +:+ t +:+ u.
Proof. induction s as [|c s IH]; [reflexivity|]. rewrite !app_String, IH. reflexivity. Qed.

Lemma app_inj_l s t u : s +:+ t = s +:+ u -> t = u.
Proof. induction s as [|c s IH]; [auto|]. rewrite !app_String. intros [=]. auto. Qed.

Lemma length_app s t : String.length (s +:+ t) = (String.length s + String.length t)%nat.
Proof. induction s as [|c s IH]; [reflexivity|]. rewrite app_String. simpl. rewrite IH. reflexivity. Qed.



Lemma contains_cons p c s :
  PyStr.contains p (String c s) = (String.prefix p (String c s) || PyStr.contains p s)%bool.
Proof. reflexivity. Qed.

Lemma prefix_cons c p c' s :
  String.prefix (String c p) (String c' s) = (bool_decide (c = c') && String.prefix p s)%bool.
Proof.
  simpl. destruct (ascii_dec c c') as [->|Hne].
  - rewrite bool_decide_eq_true_2 by reflexivity. reflexivity.
  - rewrite bool_decide_eq_false_2 by exact Hne. reflexivity.
Qed.


End StrFacts.




(** *** Which rows [visit_hash_idx] selects *)



(** ** What a call returns *)

Lemma kept_refl m : kept m m.
Proof. intros p H. exact H. Qed.

Lemma kept_trans m1 m2 m3 : kept m1 m2 -> kept m2 m3 -> kept m1 m3.
Proof. intros H12 H23 p H. auto. Qed.

Lemma kept_insert m m' p c : kept m m' -> kept m (<[p:=c]> m').
Proof.
  intros H q Hq. destruct (decide (p = q)) as [->|Hne].
  - rewrite lookup_insert_eq. eauto.
  - rewrite lookup_insert_ne by exact Hne. auto.
Qed.

Ltac solve_kept :=
  repeat apply kept_insert;
  first [ apply kept_refl
        | eapply kept_trans; [|eassumption]; solve_kept ].

Ltac rec_kept a IH :=
  as_call a;
  eapply wp_conseq; [apply IH|]; unfold files_kept; wp_red; intros [?|?|] ? ?.

Lemma call_keeps_files (E : Env) (f : api) (fuel : nat) :
  forall a w, wp (call E f fuel a) (files_kept w) w.
Proof.
  induction fuel as [|fuel IH]; intros a w.
  - destruct f; apply kept_refl.
  - destruct f; cbn [call]; wp_unfold.
    + repeat (dr_known; first [wp_stepx E | rec_kept a IH]); unfold files_kept; wp_red; solve_kept.
    + repeat (dr_known; first [wp_stepx E | rec_kept a IH]); unfold files_kept; wp_red; solve_kept.
    + repeat (dr_known; first [wp_stepx E | rec_kept a IH]); unfold files_kept; wp_red; solve_kept.
    + repeat (dr_known; first [wp_stepx E | rec_kept a IH]); unfold files_kept; wp_red; solve_kept.
    + repeat (dr_known; first [wp_stepx E | rec_kept a IH]); unfold files_kept; wp_red; solve_kept.
    + repeat (dr_known; first [wp_stepx E | rec_kept a IH]); unfold files_kept; wp_red; solve_kept.
    + repeat (dr_known; first [wp_stepx E | rec_kept a IH]); unfold files_kept; wp_red; solve_kept.
Qed.





Ltac rec_is_run a Hrec :=
  as_call a; eapply wp_is_run; [exact Hrec|].






(** ** A remote that answers 404 *)


(** ** A corrupt local copy *)

(** C3 (amended).  For the five catalogue functions: if a local copy
    exists, [flag] is [None], its sha1 checksum differs from the expected
    one, and the remote answers the re-fetch with anything but a body that
    is corrupt again or a 401, then exactly one recursive call with
    [flag=1] is made (one corruption warning) and exactly one download is
    requested, for the URL and the path of the file. *)
Theorem corrupt_copy_refetched_once (E : Env) (f : api) (a : args) (fuel : nat) (w : world)
    (c : string) :
  is_spectra f = false ->
  apogee_default_dr E (dr a) = 17 ->
  apogee_default_dr E (Some 17) = 17 ->
  flag a = None ->
  fs w !! local_path E f a = Some c ->
  filehash E c <> fixed_hash f ->
  clean_refetch E f (server E (nreq w) (remote_url f a)) ->
  forall r w', call E f (S (S fuel)) a w = (r, w') ->
    nreq w' = S (nreq w)
    /\ List.filter is_retrieve (trace w')
       = EvUrlretrieve (remote_url f a) (local_path E f a) :: List.filter is_retrieve (trace w)
    /\ List.filter is_corruption_warning (trace w')
       = EvWarn corruption_msg :: List.filter is_corruption_warning (trace w).
Proof.
  intros Hf Hdr Hdr17 Hflag Hfile Hbad Hclean. apply wp_run.
  destruct f; try discriminate; cbn [call local_path remote_url fixed_hash clean_refetch] in *.
  - destruct (server E (nreq w) allstar_url) eqn:Hsrv; cbn in Hclean; wp_deep E; wp_done.
  - destruct (server E (nreq w) astronn_url) eqn:Hsrv; cbn in Hclean; wp_deep E; wp_done.
  - destruct (server E (nreq w) allvisit_url) eqn:Hsrv; cbn in Hclean; wp_deep E; wp_done.
  - destruct (server E (nreq w) (rc_urlstr 17)) eqn:Hsrv; cbn in Hclean; wp_deep E; wp_done.
  - destruct (server E (nreq w) distances_urlstr) eqn:Hsrv; cbn in Hclean; wp_deep E; wp_done.
Qed.

Lemma corrupt_copy_refetched_once_witness :
  let E := Sample.env (Scenario.always allstar_file_hash) in
  let w := Sample.world0 [(Scenario.allstar_path, "corrupt")] in
  is_spectra Allstar = false
  /\ apogee_default_dr E (dr Scenario.catalog_args) = 17
  /\ apogee_default_dr E (Some 17) = 17
  /\ flag Scenario.catalog_args = None
  /\ fs w !! local_path E Allstar Scenario.catalog_args = Some "corrupt"
  /\ filehash E "corrupt" <> fixed_hash Allstar
  /\ clean_refetch E Allstar (server E (nreq w) (remote_url Allstar Scenario.catalog_args))
  /\ forall r w', call E Allstar 2 Scenario.catalog_args w = (r, w') ->
       nreq w' = S (nreq w)
       /\ List.filter is_retrieve (trace w')
          = EvUrlretrieve (remote_url Allstar Scenario.catalog_args)
              (local_path E Allstar Scenario.catalog_args) :: List.filter is_retrieve (trace w)
       /\ List.filter is_corruption_warning (trace w')
          = EvWarn corruption_msg :: List.filter is_corruption_warning (trace w).
Proof.
  cbv zeta.
  assert (Hbad : filehash (Sample.env (Scenario.always allstar_file_hash)) "corrupt"
                 <> fixed_hash Allstar) by (vm_compute; discriminate).
  do 5 (split; [vm_compute; reflexivity|]). split; [exact Hbad|].
  split; [vm_compute; reflexivity|].
  apply (corrupt_copy_refetched_once (Sample.env (Scenario.always allstar_file_hash)) Allstar
           Scenario.catalog_args 0 (Sample.world0 [(Scenario.allstar_path, "corrupt")])
           "corrupt" eq_refl);
    [vm_compute; reflexivity | vm_compute; reflexivity | vm_compute; reflexivity
    | vm_compute; reflexivity | exact Hbad | vm_compute; reflexivity].
Defined.

(** C3, as stated, fails when the remote delivers a corrupt body: the
    re-fetch is found corrupt too and is followed by a second recursive
    call and a second download. *)
Lemma corrupt_refetch_is_refetched_again :
  let E := Sample.env (Scenario.in_turn ["corrupt too"] allstar_file_hash) in
  let w := Sample.world0 [(Scenario.allstar_path, "corrupt")] in
  let w' := (call E Allstar 3 Scenario.catalog_args w).2 in
  fs w !! local_path E Allstar Scenario.catalog_args = Some "corrupt"
  /\ flag Scenario.catalog_args = None
  /\ filehash E "corrupt" <> fixed_hash Allstar
  /\ (call E Allstar 3 Scenario.catalog_args w).1 = Ret (PStr Scenario.allstar_path)
  /\ nreq w = 0%nat /\ nreq w' = 2%nat
  /\ List.filter is_retrieve (trace w')
     = [EvUrlretrieve allstar_url Scenario.allstar_path;
        EvUrlretrieve allstar_url Scenario.allstar_path]
  /\ List.filter is_corruption_warning (trace w')
     = [EvWarn corruption_msg; EvWarn corruption_msg].
Proof.
  cbv zeta. repeat split; try (vm_compute; reflexivity). vm_compute; discriminate.
Qed.

(** ** Termination and the depth of the recursion *)





















(** ** Answers 401 *)




(** ** Paths and URLs depend on the descriptor alone *)

Lemma extends_by_refl P t : extends_by P t t.
Proof. exists []. split; [reflexivity|constructor]. Qed.

Lemma extends_by_cons (P : event -> Prop) t t' e :
  P e -> extends_by P t t' -> extends_by P t (e :: t').
Proof. intros He (new & -> & Hnew). exists (e :: new). split; [reflexivity|constructor; auto]. Qed.















(** * C9: what the recovery call of the spectra functions is called with *)

Module PathFacts.

Import StrFacts.

Lemma app_inj_r s t u : s +:+ u = t +:+ u -> s = t.
Proof.
  revert t. induction s as [|c s IH]; intros [|c' t] H.
  - reflexivity.
  - apply (f_equal String.length) in H. rewrite app_Empty, length_app in H. simpl in H. lia.
  - apply (f_equal String.length) in H. rewrite app_Empty, length_app in H. simpl in H. lia.
  - rewrite !app_String in H. injection H as -> H. f_equal. apply IH. exact H.
Qed.

Lemma app_eq_cons T r c s :
  T +:+ r = String c s ->
  (T = "" /\ r = String c s) \/ (exists T', T = String c T' /\ T' +:+ r = s).
Proof.
  destruct T as [|c' T']; [left; auto|].
  rewrite app_String. intros [= -> H]. right. eauto.
Qed.

Lemma app_eq_nil T r : T +:+ r = "" -> T = "" /\ r = "".
Proof. destruct T; [auto|discriminate]. Qed.

Lemma prefix_empty s : String.prefix "" s = true.
Proof. destruct s; reflexivity. Qed.

Lemma contains_sep_cons c s :
  PyStr.contains OsPath.sep (String c s)
  = (bool_decide ("/"%char = c) || PyStr.contains OsPath.sep s)%bool.
Proof.
  rewrite contains_cons. unfold OsPath.sep. rewrite prefix_cons, prefix_empty, andb_true_r.
  reflexivity.
Qed.

Lemma slash_free_cons c s : slash_free (String c s) <-> c <> "/"%char /\ slash_free s.
Proof.
  unfold slash_free. rewrite contains_sep_cons, orb_false_iff, bool_decide_eq_false.
  split; intros [H1 H2]; split; auto.
Qed.

(** Cutting two texts at their first separator. *)
Lemma first_sep T T' r r' :
  slash_free T -> slash_free T' ->
  T +:+ "/" +:+ r = T' +:+ "/" +:+ r' -> T = T' /\ r = r'.
Proof.
  revert T'. induction T as [|c T IH]; intros [|c' T'] HT HT' H;
    rewrite ?app_String, ?app_Empty in H.
  - injection H as ->. auto.
  - injection H as <- _. apply slash_free_cons in HT' as [Hc _]. congruence.
  - injection H as -> _. apply slash_free_cons in HT as [Hc _]. congruence.
  - injection H as -> H.
    apply slash_free_cons in HT as [_ HT]. apply slash_free_cons in HT' as [_ HT'].
    destruct (IH T' HT HT' H) as [-> ->]. auto.
Qed.

Lemma startswith_sep_slash_free s : slash_free s -> PyStr.startswith s OsPath.sep = false.
Proof.
  destruct s as [|c s]; [reflexivity|]. intros [Hc _]%slash_free_cons.
  unfold PyStr.startswith, OsPath.sep. rewrite prefix_cons.
  rewrite bool_decide_eq_false_2 by congruence. reflexivity.
Qed.

Lemma endswith_sep_app x c y :
  PyStr.endswith_sep (x +:+ String c y) = PyStr.endswith_sep (String c y).
Proof.
  induction x as [|a x IH]; [reflexivity|].
  rewrite app_String. simpl PyStr.endswith_sep at 1.
  destruct (x +:+ String c y) eqn:Hx.
  - destruct x; discriminate.
  - exact IH.
Qed.

Lemma endswith_sep_slash_free s : slash_free s -> PyStr.endswith_sep s = false.
Proof.
  induction s as [|c s IH]; [reflexivity|]. intros [Hc Hs]%slash_free_cons.
  simpl. destruct s; [|auto]. apply Ascii.eqb_neq. exact Hc.
Qed.

Lemma app_nil_r s : s +:+ "" = s.
Proof. induction s as [|c s IH]; [reflexivity|]. rewrite app_String, IH. reflexivity. Qed.

End PathFacts.

(** Solving an equation between texts whose right-hand side is a literal. *)
Ltac peel H :=
  rewrite ?StrFacts.app_String, ?StrFacts.app_Empty in H;
  lazymatch type of H with
  | ?x = ?x => clear H
  | String _ _ = String _ _ =>
      tryif discriminate H then idtac else (injection H as H; peel H)
  | EmptyString = String _ _ => discriminate H
  | String _ _ = EmptyString => discriminate H
  | EmptyString = EmptyString => clear H
  | ?T +:+ _ = String _ _ =>
      let T' := fresh T in
      apply PathFacts.app_eq_cons in H as [[-> H]|(T' & -> & H)]; peel H
  | ?T +:+ _ = EmptyString => apply PathFacts.app_eq_nil in H as [-> H]; peel H
  | ?T = _ => is_var T; subst T
  | _ => idtac
  end.

Module JoinFacts.

Import StrFacts PathFacts.

(** [join_step] on a component that is not absolute. *)
Lemma join_step_rel p b :
  PyStr.startswith b OsPath.sep = false ->
  OsPath.join_step p b
  = p +:+ (if (bool_decide (p = "") || PyStr.endswith_sep p)%bool then "" else "/") +:+ b.
Proof.
  intros Hb. unfold OsPath.join_step. rewrite Hb.
  destruct (bool_decide (p = "") || PyStr.endswith_sep p)%bool; reflexivity.
Qed.

Lemma join_step_abs p b : OsPath.join_step p (String "/" b) = String "/" b.
Proof.
  unfold OsPath.join_step, PyStr.startswith, OsPath.sep.
  rewrite prefix_cons, prefix_empty, bool_decide_eq_true_2 by reflexivity. reflexivity.
Qed.

(** The mirror root, as [os.path.join(os.sep, apogee_env(), ...)] starts. *)
Lemma root_abs env : exists R, OsPath.join_step OsPath.sep env = String "/" R.
Proof.
  unfold OsPath.join_step. destruct (PyStr.startswith env OsPath.sep) eqn:Habs.
  - destruct env as [|c env]; [discriminate|].
    unfold PyStr.startswith, OsPath.sep in Habs. rewrite prefix_cons in Habs.
    apply andb_true_iff in Habs as [Hc _]. apply bool_decide_eq_true in Hc as <-. eauto.
  - exists env. reflexivity.
Qed.

Lemma startswith_app_rel c A T :
  c <> "/"%char -> PyStr.startswith (String c A +:+ T) OsPath.sep = false.
Proof.
  intros Hc. rewrite app_String. unfold PyStr.startswith, OsPath.sep.
  rewrite prefix_cons, bool_decide_eq_false_2 by congruence. reflexivity.
Qed.

Lemma endswith_sep_app_sep x : PyStr.endswith_sep (x +:+ "/") = true.
Proof. rewrite endswith_sep_app. reflexivity. Qed.

Lemma endswith_sep_app_text x T :
  slash_free T -> T <> "" -> PyStr.endswith_sep (x +:+ T) = false.
Proof.
  intros HT Hne. destruct T as [|c T]; [congruence|].
  rewrite endswith_sep_app. apply endswith_sep_slash_free. exact HT.
Qed.

End JoinFacts.

Lemma sep_unless_empty_endswith x T :
  PyStr.endswith_sep x = true -> slash_free T ->
  (if (bool_decide (x +:+ T = "") || PyStr.endswith_sep (x +:+ T))%bool then "" else "/")
  = sep_unless_empty T.
Proof.
  intros Hx HT. unfold sep_unless_empty. destruct (decide (T = "")) as [->|Hne].
  - rewrite PathFacts.app_nil_r, Hx, orb_true_r, bool_decide_eq_true_2 by reflexivity.
    reflexivity.
  - rewrite (JoinFacts.endswith_sep_app_text x T HT Hne).
    rewrite (bool_decide_eq_false_2 (T = "")) by exact Hne.
    rewrite bool_decide_eq_false_2; [reflexivity|].
    intros H. apply PathFacts.app_eq_nil in H as [_ H]. exact (Hne H).
Qed.

Lemma endswith_sep_with_sep x T :
  PyStr.endswith_sep x = true -> PyStr.endswith_sep (x +:+ T +:+ sep_unless_empty T) = true.
Proof.
  intros Hx. unfold sep_unless_empty. destruct (decide (T = "")) as [->|Hne].
  - rewrite bool_decide_eq_true_2 by reflexivity. rewrite !PathFacts.app_nil_r. exact Hx.
  - rewrite bool_decide_eq_false_2 by exact Hne.
    rewrite <- StrFacts.app_assoc. apply JoinFacts.endswith_sep_app_sep.
Qed.

(** The local path of a file below an absolute directory [X] that ends in
    a separator, through the components [T] and [F]. *)
Lemma path_shape (X' T F fn : string) :
  let X := String "/" X' in
  PyStr.endswith_sep X = true ->
  slash_free T -> slash_free F -> PyStr.startswith fn OsPath.sep = false ->
  OsPath.join_step (OsPath.join_step OsPath.sep (OsPath.join_step (X +:+ T) F)) fn
  = X +:+ combined_tail T F fn.
Proof.
  intros X HX HT HF Hfn.
  rewrite (JoinFacts.join_step_rel (X +:+ T) F)
    by (apply PathFacts.startswith_sep_slash_free; exact HF).
  rewrite (sep_unless_empty_endswith X T HX HT).
  unfold X at 1. rewrite !StrFacts.app_String, JoinFacts.join_step_abs.
  rewrite <- !StrFacts.app_String. fold X.
  rewrite (JoinFacts.join_step_rel _ fn) by exact Hfn.
  replace ((X +:+ T) +:+ sep_unless_empty T +:+ F)
    with ((X +:+ T +:+ sep_unless_empty T) +:+ F)
    by (rewrite !StrFacts.app_assoc; reflexivity).
  rewrite (sep_unless_empty_endswith _ F (endswith_sep_with_sep X T HX) HF).
  unfold combined_tail. rewrite !StrFacts.app_assoc. reflexivity.
Qed.

(** The part of the local paths that the environment root fixes. *)
Lemma below_root (env : string) (c : ascii) (A : string) :
  c <> "/"%char -> PyStr.endswith_sep (String c A) = true ->
  exists X',
    PyStr.endswith_sep (String "/" X') = true
    /\ forall T, OsPath.join_step (OsPath.join_step OsPath.sep env) (String c A +:+ T)
                 = String "/" X' +:+ T.
Proof.
  intros Hc HA. destruct (JoinFacts.root_abs env) as [R HR]. rewrite HR.
  exists (R +:+ (if PyStr.endswith_sep (String "/" R) then "" else "/") +:+ String c A).
  split.
  - replace (String "/" (R +:+ (if PyStr.endswith_sep (String "/" R) then "" else "/") +:+ String c A))
      with ((String "/" R +:+ (if PyStr.endswith_sep (String "/" R) then "" else "/")) +:+ String c A)
      by (rewrite StrFacts.app_assoc; reflexivity).
    rewrite PathFacts.endswith_sep_app. exact HA.
  - intros T.
    rewrite JoinFacts.join_step_rel by (apply JoinFacts.startswith_app_rel; exact Hc).
    rewrite (bool_decide_eq_false_2 (String "/" R = "")) by discriminate. cbn [orb].
    rewrite <- StrFacts.app_String. rewrite !StrFacts.app_assoc. reflexivity.
Qed.

Lemma combined_local_path (E : Env) :
  exists X, forall a,
    slash_free (PyStr.fmt (telescope a)) -> slash_free (PyStr.fmt (field a)) ->
    local_path E CombinedSpectra a
    = X +:+ combined_tail (PyStr.fmt (telescope a)) (PyStr.fmt (field a))
              (combined_filename (apogee a)).
Proof.
  destruct (below_root (apogee_env E) "d" "r17/apogee/spectro/aspcap/dr17/synspec/")
    as (X' & HX & Hjoin); [discriminate|reflexivity|].
  exists (String "/" X'). intros a HT HF.
  cbn [local_path]. unfold combined_fullfilename, combined_fullfoldername, OsPath.join.
  cbn [fold_left].
  change ("dr" +:+ PyStr.of_Z 17 +:+ "/apogee/spectro/aspcap/" +:+ reduce_prefix +:+ "/" +:+
          aspcap_code +:+ "/" +:+ PyStr.fmt (telescope a))
    with ("dr17/apogee/spectro/aspcap/dr17/synspec/" +:+ PyStr.fmt (telescope a)).
  rewrite Hjoin. apply (path_shape X' _ _ _ HX HT HF).
  unfold combined_filename. apply JoinFacts.startswith_app_rel. discriminate.
Qed.

Lemma startswith_visit_filename t ap cm :
  PyStr.startswith (visit_filename t ap cm) OsPath.sep = false.
Proof.
  unfold visit_filename. destruct (bool_decide _), cm;
    apply JoinFacts.startswith_app_rel; discriminate.
Qed.

Lemma visit_local_path (E : Env) :
  exists X, forall a,
    slash_free (PyStr.fmt (field a)) ->
    local_path E VisitSpectra a
    = X +:+ visit_tail (PyStr.fmt (telescope a)) (PyStr.fmt (field a))
              (visit_filename (telescope a) (apogee a) (commission a)).
Proof.
  destruct (below_root (apogee_env E) "d" "r17/apogee/spectro/redux/dr17/stars/")
    as (X' & HX & Hjoin); [discriminate|reflexivity|].
  exists (String "/" X'). intros a HF.
  cbn [local_path]. unfold visit_fullfilename, visit_fullfoldername, OsPath.join.
  cbn [fold_left].
  change ("dr" +:+ PyStr.of_Z 17 +:+ "/apogee/spectro/redux/" +:+ reduce_prefix +:+ "/stars/" +:+
          PyStr.fmt (telescope a) +:+ "/")
    with ("dr17/apogee/spectro/redux/dr17/stars/" +:+ PyStr.fmt (telescope a) +:+ "/").
  rewrite Hjoin.
  replace (String "/" X' +:+ PyStr.fmt (telescope a) +:+ "/")
    with (String "/" (X' +:+ PyStr.fmt (telescope a) +:+ "/") +:+ "")
    by (rewrite PathFacts.app_nil_r; reflexivity).
  rewrite (path_shape (X' +:+ PyStr.fmt (telescope a) +:+ "/") "" _ _).
  - unfold combined_tail, visit_tail, sep_unless_empty at 1.
    rewrite bool_decide_eq_true_2 by reflexivity.
    rewrite <- StrFacts.app_String, !StrFacts.app_assoc, !StrFacts.app_Empty. reflexivity.
  - replace (String "/" (X' +:+ PyStr.fmt (telescope a) +:+ "/"))
      with ((String "/" X' +:+ PyStr.fmt (telescope a)) +:+ "/")
      by (rewrite StrFacts.app_assoc; reflexivity).
    apply JoinFacts.endswith_sep_app_sep.
  - reflexivity.
  - exact HF.
  - apply startswith_visit_filename.
Qed.

Lemma slash_free_None : slash_free "None".
Proof. reflexivity. Qed.

Lemma sep_unless_empty_ne s : s <> "" -> sep_unless_empty s = "/".
Proof. intros H. unfold sep_unless_empty. rewrite bool_decide_eq_false_2 by exact H. reflexivity. Qed.

Lemma recovery_path_differs (E : Env) (f : api) (a : args) :
  is_spectra f = true ->
  slash_free (PyStr.fmt (telescope a)) -> slash_free (PyStr.fmt (field a)) ->
  ~ both_none a ->
  local_path E f (rec_args f a) <> local_path E f a.
Proof.
  intros Hf HT HF Hnot Heq. destruct f; try discriminate.
  - destruct (combined_local_path E) as [X HX].
    rewrite (HX a HT HF), (HX (rec_args CombinedSpectra a) slash_free_None slash_free_None) in Heq.
    apply StrFacts.app_inj_l in Heq. cbn [rec_args telescope field apogee PyStr.fmt] in Heq.
    unfold combined_tail, combined_filename in Heq.
    rewrite (sep_unless_empty_ne "None") in Heq by discriminate.
    destruct (decide (PyStr.fmt (telescope a) = "")) as [HT0|HT0];
      destruct (decide (PyStr.fmt (field a) = "")) as [HF0|HF0];
      rewrite ?HT0, ?HF0, ?(sep_unless_empty_ne _ HT0), ?(sep_unless_empty_ne _ HF0) in Heq;
      unfold sep_unless_empty in Heq; rewrite ?bool_decide_eq_true_2 in Heq by reflexivity.
    + peel Heq.
    + apply (PathFacts.first_sep "None" _ _ _ slash_free_None HF) in Heq as [_ Heq]. peel Heq.
    + apply (PathFacts.first_sep "None" _ _ _ slash_free_None HT) in Heq as [_ Heq]. peel Heq.
    + apply (PathFacts.first_sep "None" _ _ _ slash_free_None HT) in Heq as [HT1 Heq].
      apply (PathFacts.first_sep "None" _ _ _ slash_free_None HF) in Heq as [HF1 _].
      apply Hnot. split; congruence.
  - destruct (visit_local_path E) as [X HX].
    rewrite (HX a HF), (HX (rec_args VisitSpectra a) slash_free_None) in Heq.
    apply StrFacts.app_inj_l in Heq. cbn [rec_args telescope field apogee commission PyStr.fmt] in Heq.
    unfold visit_tail in Heq.
    rewrite (sep_unless_empty_ne "None") in Heq by discriminate.
    apply (PathFacts.first_sep "None" _ _ _ slash_free_None HT) in Heq as [HT1 Heq].
    destruct (decide (PyStr.fmt (field a) = "")) as [HF0|HF0].
    + rewrite HF0 in Heq. unfold sep_unless_empty in Heq.
      rewrite bool_decide_eq_true_2 in Heq by reflexivity.
      unfold visit_filename in Heq.
      destruct (bool_decide (telescope a = Some "lco25m")), (commission a),
        (bool_decide (@None string = Some "lco25m")); peel Heq.
    + rewrite (sep_unless_empty_ne _ HF0) in Heq.
      apply (PathFacts.first_sep "None" _ _ _ slash_free_None HF) in Heq as [HF1 _].
      apply Hnot. split; congruence.
Qed.

(** Cancelling what two URLs share at both ends, then solving for the texts. *)
Ltac url_eq H :=
  rewrite ?StrFacts.app_assoc in H;
  repeat apply StrFacts.app_inj_l in H;
  rewrite <- ?StrFacts.app_assoc in H;
  repeat apply PathFacts.app_inj_r in H;
  rewrite ?StrFacts.app_assoc in H;
  symmetry in H; peel H.

Lemma recovery_url_differs (f : api) (a : args) :
  is_spectra f = true ->
  ~ both_none a ->
  remote_url f (rec_args f a) <> remote_url f a.
Proof.
  intros Hf Hnot Heq. unfold both_none in Hnot. destruct f; try discriminate.
  - cbn [remote_url rec_args telescope field apogee commission] in Heq.
    unfold combined_urlstr, combined_str1, combined_filename, reduce_prefix, aspcap_code in Heq.
    cbn [PyStr.fmt] in Heq.
    generalize dependent (PyStr.fmt (telescope a)). intros T.
    generalize dependent (PyStr.fmt (field a)). intros F Hnot Heq.
    url_eq Heq. apply Hnot; auto.
  - cbn [remote_url rec_args telescope field apogee commission] in Heq.
    unfold visit_urlstr, visit_str1, visit_filename, reduce_prefix in Heq.
    rewrite (bool_decide_eq_false_2 (None = Some "lco25m")) in Heq by discriminate.
    cbn [PyStr.fmt] in Heq.
    destruct (bool_decide (telescope a = Some "lco25m")) eqn:Hlco.
    + apply bool_decide_eq_true in Hlco. rewrite Hlco in Heq. cbn [PyStr.fmt] in Heq.
      rewrite ?StrFacts.app_assoc in Heq. repeat apply StrFacts.app_inj_l in Heq.
      destruct (commission a); peel Heq.
    + clear Hlco. generalize dependent (PyStr.fmt (telescope a)). intros T.
      generalize dependent (PyStr.fmt (field a)). intros F Hnot Heq.
      destruct (commission a); url_eq Heq; apply Hnot; auto.
Qed.

Ltac solve_continues :=
  unfold continues; wp_red; repeat (apply extends_by_cons; [exact I|]); apply extends_by_refl.

Lemma recovery_call_embedded (E : Env) (f : api) (a : args) (fuel : nat) (w w_rec : world)
    (r1 : res pyval) (w1 : world) :
  is_spectra f = true ->
  apogee_default_dr E (dr a) = 17 ->
  recovery_call E f a w w_rec ->
  call E f fuel (rec_args f a) w_rec = (r1, w1) ->
  wp (call E f (S fuel) a) (continues w1) w.
Proof.
  intros Hf Hdr Hrc Hrec.
  destruct Hrc as [c Hflag Hfile Hbad|c Hreach Hsrv Hbad]; unfold mismatch in Hbad;
    rewrite Hf in Hbad; destruct Hbad as (mc & hash_list & h & Hm & Hl & Hfh & Hbad).
  - destruct f; try discriminate;
      cbn [local_path local_folder] in Hrec;
      cbn [call local_path local_folder manifest_path manifest_file_hash] in Hfile, Hm, Hfh |- *;
      wp_unfold; destruct r1 as [v1|e1|];
      repeat first [wp_stepx E | rec_is_run a Hrec]; solve_continues.
  - destruct f; try discriminate;
      cbn [local_path local_folder remote_url downloaded_msg] in Hrec;
      cbn [call local_path local_folder manifest_path manifest_file_hash remote_url]
        in Hreach, Hsrv, Hm, Hfh |- *;
      wp_unfold; destruct r1 as [v1|e1|]; destruct Hreach as [Hflag|Hfile];
      repeat first [wp_stepx E | rec_is_run a Hrec]; solve_continues.
Qed.

(** C9 (amended).  In [combined_spectra] and [visit_spectra], when a
    checksum mismatch triggers the corruption-recovery call, that call is
    made with [dr], [location], [apogee], [verbose] and [flag=1] only:
    [field] and [telescope] are left out, so the re-fetch computes its URL
    and local path with [field=None] and [telescope=None], and what it does
    is part of the outer run.  That URL differs from the URL of the
    original call unless the texts of [telescope] and [field] are both
    ["None"]; so does the local path when, moreover, neither text contains
    a ["/"]. *)
Theorem recovery_call_forgets_field_and_telescope (E : Env) (f : api) (a : args) (fuel : nat)
    (w w_rec : world) (r1 : res pyval) (w1 : world) :
  is_spectra f = true ->
  apogee_default_dr E (dr a) = 17 ->
  recovery_call E f a w w_rec ->
  call E f fuel (rec_args f a) w_rec = (r1, w1) ->
  extends_by (fun _ => True) (trace w1) (trace (call E f (S fuel) a w).2)
  /\ rec_args f a
     = {| dr := Some 17; location := location a; field := None; apogee := apogee a;
          telescope := None; verbose := verbose a; flag := Some 1; commission := false |}
  /\ (~ both_none a -> remote_url f (rec_args f a) <> remote_url f a)
  /\ (~ both_none a ->
      slash_free (PyStr.fmt (telescope a)) -> slash_free (PyStr.fmt (field a)) ->
      local_path E f (rec_args f a) <> local_path E f a).
Proof.
  intros Hf Hdr Hrc Hrec. split; [|split; [|split]].
  - exact (recovery_call_embedded E f a fuel w w_rec r1 w1 Hf Hdr Hrc Hrec).
  - destruct f; try discriminate; reflexivity.
  - intros Hnot. exact (recovery_url_differs f a Hf Hnot).
  - intros Hnot HT HF. exact (recovery_path_differs E f a Hf HT HF Hnot).
Qed.

Lemma recovery_call_forgets_field_and_telescope_witness :
  let E := Sample.env Scenario.not_found in
  let a := Scenario.star in
  let w := Sample.world0 [(Scenario.star_manifest_path, Scenario.manifest_text);
                          (Scenario.star_path, "corrupt")] in
  let w_rec := emit (EvWarn corruption_msg) (ensured (local_folder E CombinedSpectra a) w) in
  let run := call E CombinedSpectra 1 (rec_args CombinedSpectra a) w_rec in
  is_spectra CombinedSpectra = true
  /\ apogee_default_dr E (dr a) = 17
  /\ recovery_call E CombinedSpectra a w w_rec
  /\ run = (Ret PFalse, run.2)
  /\ ~ both_none a
  /\ slash_free (PyStr.fmt (telescope a)) /\ slash_free (PyStr.fmt (field a))
  /\ extends_by (fun _ => True) (trace run.2) (trace (call E CombinedSpectra 2 a w).2)
  /\ remote_url CombinedSpectra (rec_args CombinedSpectra a) <> remote_url CombinedSpectra a
  /\ local_path E CombinedSpectra (rec_args CombinedSpectra a) <> local_path E CombinedSpectra a.
Proof.
  cbv zeta.
  set (E := Sample.env Scenario.not_found).
  set (w := Sample.world0 [(Scenario.star_manifest_path, Scenario.manifest_text);
                           (Scenario.star_path, "corrupt")]).
  set (w_rec := emit (EvWarn corruption_msg)
                  (ensured (local_folder E CombinedSpectra Scenario.star) w)).
  assert (Hrc : recovery_call E CombinedSpectra Scenario.star w w_rec).
  { apply (recovery_on_disk _ _ _ _ "corrupt");
      [reflexivity | vm_compute; reflexivity|].
    exists Scenario.manifest_text, Scenario.manifest_rows, "abc".
    repeat split; try (vm_compute; reflexivity). vm_compute. discriminate. }
  assert (Hrec : call E CombinedSpectra 1 (rec_args CombinedSpectra Scenario.star) w_rec
                 = (Ret PFalse,
                    (call E CombinedSpectra 1 (rec_args CombinedSpectra Scenario.star) w_rec).2))
    by (vm_compute; reflexivity).
  assert (Hnot : ~ both_none Scenario.star) by (intros [H _]; vm_compute in H; discriminate H).
  pose proof (recovery_call_forgets_field_and_telescope E CombinedSpectra Scenario.star 1 w w_rec
                (Ret PFalse) _ eq_refl eq_refl Hrc Hrec) as (H1 & _ & H3 & H4).
  split; [reflexivity|]. split; [reflexivity|]. split; [exact Hrc|]. split; [exact Hrec|].
  split; [exact Hnot|]. split; [reflexivity|]. split; [reflexivity|].
  split; [exact H1|]. split; [exact (H3 Hnot)|].
  apply (H4 Hnot); reflexivity.
Defined.

(** C9, as stated, fails for arguments that are not [None] but read like
    it: with [field="None"] (a string) and no telescope the recovery call
    computes the very URL and local path of the original call; and with
    [telescope="None/None"] and [field=""] it computes the same local
    path. *)
Lemma recovery_targets_can_coincide :
  let E := Sample.env Scenario.not_found in
  let a := Scenario.mk_args (Some 17) (Some "None") (Some "2M0") None None in
  let b := Scenario.mk_args (Some 17) (Some "") (Some "2M0") (Some "None/None") None in
  field a <> None
  /\ remote_url CombinedSpectra (rec_args CombinedSpectra a) = remote_url CombinedSpectra a
  /\ local_path E CombinedSpectra (rec_args CombinedSpectra a) = local_path E CombinedSpectra a
  /\ remote_url VisitSpectra (rec_args VisitSpectra a) = remote_url VisitSpectra a
  /\ local_path E VisitSpectra (rec_args VisitSpectra a) = local_path E VisitSpectra a
  /\ field b <> None /\ telescope b <> None
  /\ local_path E CombinedSpectra (rec_args CombinedSpectra b) = local_path E CombinedSpectra b.
Proof. cbv zeta. repeat split; try discriminate; vm_compute; reflexivity. Qed.

(** ** A valid local copy is served from the cache *)




(** ** A manifest without a row for the file *)






(** ** The manifest lookup of [visit_spectra] *)



(** * Further properties of the download functions *)

(** ** Runs that are determined by the first answers of the remote *)

Lemma wp_equal {A} (m : M A) (r0 : res A) (w0 w : world) :
  wp m (fun r w' => r = r0 /\ w' = w0) w -> m w = (r0, w0).
Proof. unfold wp. destruct (m w) as [r w']. cbn. intros [-> ->]. reflexivity. Qed.

(** X1.  A release other than 17 is refused by every public function with
    a [ValueError], before anything is done: no directory is created, no
    request is made. *)
Theorem unsupported_release_raises (E : Env) (f : api) (a : args) (fuel : nat) (w : world) :
  apogee_default_dr E (dr a) <> 17 ->
  call E f (S fuel) a w = (Raise (ValueError (unsupported_msg f)), w).
Proof.
  intros Hdr. apply Z.eqb_neq in Hdr.
  destruct f; cbn [call allstar apogee_astronn allvisit combined_spectra visit_spectra
                   apogee_rc apogee_distances]; cbv zeta; rewrite Hdr; reflexivity.
Qed.

Lemma unsupported_release_raises_witness :
  let E := Sample.env Scenario.not_found in
  let a := Scenario.mk_args (Some 16) None None None None in
  apogee_default_dr E (dr a) <> 17
  /\ call E Allvisit 1 a (Sample.world0 [])
     = (Raise (ValueError "allvisit() only supports APOGEE DR13-DR17"), Sample.world0 []).
Proof.
  cbv zeta. split; [vm_compute; discriminate|].
  apply (unsupported_release_raises (Sample.env Scenario.not_found) Allvisit
           (Scenario.mk_args (Some 16) None None None None) 0 (Sample.world0 [])).
  vm_compute. discriminate.
Defined.

Lemma valid_copy_run (E : Env) (f : api) (a : args) (fuel : nat) (w : world) (c : string) :
  f <> ApogeeDistances ->
  apogee_default_dr E (dr a) = 17 ->
  flag a = None ->
  fs w !! local_path E f a = Some c ->
  cache_valid E f a w c ->
  call E f (S fuel) a w
  = (Ret (PStr (local_path E f a)), found_log E f a (ensured (local_folder E f a) w)).
Proof.
  intros Hf Hdr Hflag Hfile Hvalid. apply wp_equal.
  destruct f; try congruence; unfold cache_valid in Hvalid;
    cbn [call local_path local_folder found_log is_spectra fixed_hash manifest_path
         manifest_file_hash] in *;
    try destruct Hvalid as (mc & rows & Hm & Hl & Hh);
    wp_unfold; wp_go E; wp_done.
Qed.

Lemma valid_download_run (E : Env) (f : api) (a : args) (fuel : nat) (w : world) (c : string) :
  f <> ApogeeDistances ->
  apogee_default_dr E (dr a) = 17 ->
  to_download E f a w ->
  server E (nreq w) (remote_url f a) = RespOk c ->
  cache_valid E f a w c ->
  call E f (S fuel) a w = (Ret (PStr (local_path E f a)), downloaded E f a c w).
Proof.
  intros Hf Hdr Hreach Hsrv Hvalid. apply wp_equal.
  destruct f; try congruence; unfold cache_valid in Hvalid; unfold to_download in Hreach;
    cbn [call local_path local_folder remote_url downloaded downloaded_msg is_spectra fixed_hash
         manifest_path manifest_file_hash] in *;
    try destruct Hvalid as (mc & rows & Hm & Hl & Hh);
    wp_unfold; destruct Hreach as [Hflag|Hfile]; wp_go E; wp_done.
Qed.

(** X2.  For [allstar], [apogee_astronn], [allvisit], [combined_spectra],
    [visit_spectra] and [apogee_rc]: with a local copy that has the
    expected checksum and no flag, the path is returned and the only
    thing done besides making sure of the folder is the log entry that
    the file was found, which the catalogues always write,
    [combined_spectra] when [verbose == 1] and [visit_spectra] when
    [verbose] is not 0. *)
Theorem valid_copy_is_returned (E : Env) (f : api) (a : args) (fuel : nat) (w : world)
    (c : string) :
  f <> ApogeeDistances ->
  apogee_default_dr E (dr a) = 17 ->
  flag a = None ->
  fs w !! local_path E f a = Some c ->
  cache_valid E f a w c ->
  call E f (S fuel) a w
  = (Ret (PStr (local_path E f a)), found_log E f a (ensured (local_folder E f a) w)).
Proof. exact (valid_copy_run E f a fuel w c). Qed.

Lemma valid_copy_is_returned_witness :
  let E := Sample.env Scenario.not_found in
  let a := Scenario.catalog_args in
  let w := Sample.world0 [(Scenario.allstar_path, allstar_file_hash)] in
  Allstar <> ApogeeDistances
  /\ apogee_default_dr E (dr a) = 17
  /\ flag a = None
  /\ fs w !! local_path E Allstar a = Some allstar_file_hash
  /\ cache_valid E Allstar a w allstar_file_hash
  /\ call E Allstar 1 a w
     = (Ret (PStr (local_path E Allstar a)),
        found_log E Allstar a (ensured (local_folder E Allstar a) w)).
Proof.
  cbv zeta. split; [discriminate|]. do 4 (split; [vm_compute; reflexivity|]).
  apply (valid_copy_is_returned (Sample.env Scenario.not_found) Allstar Scenario.catalog_args 0
           (Sample.world0 [(Scenario.allstar_path, allstar_file_hash)]) allstar_file_hash);
    [discriminate | vm_compute; reflexivity ..].
Defined.

(** X3.  For the same six functions: when the file is missing, or forced
    by [flag=1] whatever is on disk, and the remote delivers a body with
    the expected checksum, one request is made, the body is stored at the
    local path, the download is logged and the path returned. *)
Theorem valid_download_is_stored (E : Env) (f : api) (a : args) (fuel : nat) (w : world)
    (c : string) :
  f <> ApogeeDistances ->
  apogee_default_dr E (dr a) = 17 ->
  to_download E f a w ->
  server E (nreq w) (remote_url f a) = RespOk c ->
  cache_valid E f a w c ->
  call E f (S fuel) a w = (Ret (PStr (local_path E f a)), downloaded E f a c w).
Proof. exact (valid_download_run E f a fuel w c). Qed.

Lemma valid_download_is_stored_witness :
  let E := Sample.env (Scenario.always allstar_file_hash) in
  let a := Scenario.catalog_args in
  let w := Sample.world0 [] in
  Allstar <> ApogeeDistances
  /\ apogee_default_dr E (dr a) = 17
  /\ to_download E Allstar a w
  /\ server E (nreq w) (remote_url Allstar a) = RespOk allstar_file_hash
  /\ cache_valid E Allstar a w allstar_file_hash
  /\ call E Allstar 1 a w
     = (Ret (PStr (local_path E Allstar a)), downloaded E Allstar a allstar_file_hash w).
Proof.
  cbv zeta.
  assert (Hto : to_download (Sample.env (Scenario.always allstar_file_hash)) Allstar
                  Scenario.catalog_args (Sample.world0 []))
    by (right; vm_compute; reflexivity).
  split; [discriminate|]. split; [vm_compute; reflexivity|]. split; [exact Hto|].
  do 2 (split; [vm_compute; reflexivity|]).
  apply (valid_download_is_stored (Sample.env (Scenario.always allstar_file_hash)) Allstar
           Scenario.catalog_args 0 (Sample.world0 []) allstar_file_hash);
    [discriminate | vm_compute; reflexivity | exact Hto | vm_compute; reflexivity ..].
Defined.

(** X4.  For the same six functions: after a download that was verified,
    the next call on the same arguments finds the file on disk; it
    returns the path and makes no request, so one request was made in
    all. *)
Theorem downloaded_file_is_found_again (E : Env) (f : api) (a : args) (fuel fuel' : nat)
    (w : world) (c : string) :
  f <> ApogeeDistances ->
  apogee_default_dr E (dr a) = 17 ->
  flag a = None ->
  fs w !! local_path E f a = None ->
  server E (nreq w) (remote_url f a) = RespOk c ->
  cache_valid E f a w c ->
  forall r1 w1, call E f (S fuel) a w = (r1, w1) ->
    call E f (S fuel') a w1
    = (Ret (PStr (local_path E f a)), found_log E f a (ensured (local_folder E f a) w1))
    /\ nreq (call E f (S fuel') a w1).2 = S (nreq w).
Proof.
  intros Hf Hdr Hflag Hfile Hsrv Hvalid r1 w1 Hrun.
  rewrite (valid_download_run E f a fuel w c Hf Hdr (or_intror Hfile) Hsrv Hvalid) in Hrun.
  injection Hrun as _ <-.
  assert (Hagain : call E f (S fuel') a (downloaded E f a c w)
                   = (Ret (PStr (local_path E f a)),
                      found_log E f a (ensured (local_folder E f a) (downloaded E f a c w)))).
  { apply (valid_copy_run E f a fuel' _ c Hf Hdr Hflag).
    - unfold downloaded. wp_red. apply lookup_insert_eq.
    - unfold cache_valid in *. destruct (is_spectra f); [|exact Hvalid].
      destruct Hvalid as (mc & rows & Hm & Hl & Hh). exists mc, rows.
      split; [|split; assumption].
      unfold downloaded. wp_red. rewrite lookup_insert_ne; [exact Hm|].
      intros Heq. rewrite Heq in Hfile. congruence. }
  split; [exact Hagain|]. rewrite Hagain. cbn [snd].
  destruct f; try congruence; cbn [found_log]; unfold downloaded;
    repeat match goal with |- context [if ?b then _ else _] => destruct b end; reflexivity.
Qed.

Lemma downloaded_file_is_found_again_witness :
  let E := Sample.env (Scenario.always allstar_file_hash) in
  let a := Scenario.catalog_args in
  let w := Sample.world0 [] in
  let w1 := (call E Allstar 1 a w).2 in
  Allstar <> ApogeeDistances
  /\ apogee_default_dr E (dr a) = 17
  /\ flag a = None
  /\ fs w !! local_path E Allstar a = None
  /\ server E (nreq w) (remote_url Allstar a) = RespOk allstar_file_hash
  /\ cache_valid E Allstar a w allstar_file_hash
  /\ call E Allstar 1 a w1
     = (Ret (PStr (local_path E Allstar a)),
        found_log E Allstar a (ensured (local_folder E Allstar a) w1))
  /\ nreq (call E Allstar 1 a w1).2 = S (nreq w).
Proof.
  cbv zeta. split; [discriminate|]. do 5 (split; [vm_compute; reflexivity|]).
  refine (downloaded_file_is_found_again (Sample.env (Scenario.always allstar_file_hash)) Allstar
            Scenario.catalog_args 0 0 (Sample.world0 []) allstar_file_hash _ _ _ _ _ _
            (call (Sample.env (Scenario.always allstar_file_hash)) Allstar 1
               Scenario.catalog_args (Sample.world0 [])).1
            (call (Sample.env (Scenario.always allstar_file_hash)) Allstar 1
               Scenario.catalog_args (Sample.world0 [])).2 _);
    [discriminate | vm_compute; reflexivity .. | apply surjective_pairing].
Defined.

(** X5.  For the same six functions: with a flag that is neither [None]
    nor 1 (the docstrings' [0: normal]) and a copy on disk, the copy is
    neither verified nor fetched again.  The path is returned whatever
    the checksum of the copy, and nothing is logged. *)
Theorem other_flag_skips_verification (E : Env) (f : api) (a : args) (fuel : nat) (w : world)
    (n : Z) (c : string) :
  f <> ApogeeDistances ->
  apogee_default_dr E (dr a) = 17 ->
  flag a = Some n -> n <> 1 ->
  fs w !! local_path E f a = Some c ->
  (is_spectra f = true ->
   exists mc hash_list, fs w !! manifest_path E f a = Some mc /\ loadtxt E mc = Some hash_list) ->
  call E f (S fuel) a w = (Ret (PStr (local_path E f a)), ensured (local_folder E f a) w).
Proof.
  intros Hf Hdr Hflag Hn Hfile Hman. apply wp_equal. apply Z.eqb_neq in Hn.
  destruct f; try congruence;
    cbn [call local_path local_folder is_spectra manifest_path] in *;
    try destruct (Hman eq_refl) as (mc & rows & Hm & Hl);
    wp_unfold; wp_go E; wp_done.
Qed.

Lemma other_flag_skips_verification_witness :
  let E := Sample.env Scenario.not_found in
  let a := Replay.unforced in
  let w := Sample.world0 [(Scenario.allstar_path, "corrupt")] in
  Allstar <> ApogeeDistances
  /\ apogee_default_dr E (dr a) = 17
  /\ flag a = Some 0 /\ 0 <> 1
  /\ fs w !! local_path E Allstar a = Some "corrupt"
  /\ filehash E "corrupt" <> fixed_hash Allstar
  /\ call E Allstar 1 a w
     = (Ret (PStr (local_path E Allstar a)), ensured (local_folder E Allstar a) w).
Proof.
  cbv zeta. split; [discriminate|]. do 2 (split; [vm_compute; reflexivity|]).
  split; [discriminate|]. split; [vm_compute; reflexivity|]. split; [vm_compute; discriminate|].
  apply (other_flag_skips_verification (Sample.env Scenario.not_found) Allstar Replay.unforced 0
           (Sample.world0 [(Scenario.allstar_path, "corrupt")]) 0 "corrupt");
    [discriminate | vm_compute; reflexivity | vm_compute; reflexivity | discriminate
    | vm_compute; reflexivity | intros H; discriminate H].
Defined.

(** X6.  For [allstar], [apogee_astronn], [combined_spectra],
    [visit_spectra] and [apogee_rc]: an HTTP error of the download whose
    text does not contain [401] gives one warning and [False], with no
    second request and the credentials left alone.  The warning says the
    URL cannot be found on the server when the text of the error contains
    [404], and [Unknown error occurred] followed by the text otherwise. *)
Theorem http_error_gives_warning_and_False (E : Env) (f : api) (a : args) (fuel : nat)
    (w : world) (code : Z) (msg : string) :
  uses_credentials f = true ->
  apogee_default_dr E (dr a) = 17 ->
  download_reached E f a w ->
  server E (nreq w) (remote_url f a) = RespHTTPError code msg ->
  PyStr.contains "401" (str_HTTPError code msg) = false ->
  call E f (S fuel) a w
  = (Ret PFalse, emit (EvWarn (failure_warning (remote_url f a) code msg)) (refused E f a w)).
Proof.
  intros Hf Hdr [Hreach Hman] Hsrv H401. apply wp_equal. unfold failure_warning.
  destruct f; try discriminate;
    cbn [call local_path local_folder remote_url refused is_spectra manifest_path] in *;
    try destruct (Hman eq_refl) as (mc & rows & Hm & Hl);
    wp_unfold; destruct Hreach as [Hflag|Hfile]; wp_go E; wp_done.
Qed.

Lemma http_error_gives_warning_and_False_witness :
  let E := Sample.env (Replay.in_order [] (RespHTTPError 500 "Internal Server Error")) in
  let a := Scenario.catalog_args in
  let w := Sample.world0 [] in
  uses_credentials ApogeeRc = true
  /\ apogee_default_dr E (dr a) = 17
  /\ download_reached E ApogeeRc a w
  /\ server E (nreq w) (remote_url ApogeeRc a) = RespHTTPError 500 "Internal Server Error"
  /\ PyStr.contains "401" (str_HTTPError 500 "Internal Server Error") = false
  /\ call E ApogeeRc 1 a w
     = (Ret PFalse,
        emit (EvWarn "Unknown error occurred - HTTP Error 500: Internal Server Error")
          (refused E ApogeeRc a w)).
Proof.
  cbv zeta.
  assert (Hreach : download_reached
                     (Sample.env (Replay.in_order [] (RespHTTPError 500 "Internal Server Error")))
                     ApogeeRc Scenario.catalog_args (Sample.world0 []))
    by (split; [right; vm_compute; reflexivity|intros H; discriminate H]).
  do 2 (split; [vm_compute; reflexivity|]). split; [exact Hreach|].
  do 2 (split; [vm_compute; reflexivity|]).
  apply (http_error_gives_warning_and_False
           (Sample.env (Replay.in_order [] (RespHTTPError 500 "Internal Server Error")))
           ApogeeRc Scenario.catalog_args 0 (Sample.world0 []) 500 "Internal Server Error");
    [vm_compute; reflexivity | vm_compute; reflexivity | exact Hreach
    | vm_compute; reflexivity ..].
Defined.

(** X7.  [allvisit] has no handler: an HTTP error of its download,
    whatever its status, leaves the function as it is raised, without a
    warning and without a retry. *)
Theorem allvisit_error_propagates (E : Env) (a : args) (fuel : nat) (w : world)
    (code : Z) (msg : string) :
  apogee_default_dr E (dr a) = 17 ->
  to_download E Allvisit a w ->
  server E (nreq w) (remote_url Allvisit a) = RespHTTPError code msg ->
  call E Allvisit (S fuel) a w = (Raise (HTTPError code msg), refused E Allvisit a w).
Proof.
  intros Hdr Hreach Hsrv. apply wp_equal. unfold to_download in Hreach.
  cbn [call local_path local_folder remote_url refused] in *.
  wp_unfold; destruct Hreach as [Hflag|Hfile]; wp_go E; wp_done.
Qed.

Lemma allvisit_error_propagates_witness :
  let E := Sample.env Scenario.unauthorized in
  let a := Scenario.catalog_args in
  let w := Sample.world0 [] in
  apogee_default_dr E (dr a) = 17
  /\ to_download E Allvisit a w
  /\ server E (nreq w) (remote_url Allvisit a) = RespHTTPError 401 "Unauthorized"
  /\ call E Allvisit 1 a w
     = (Raise (HTTPError 401 "Unauthorized"), refused E Allvisit a w).
Proof.
  cbv zeta.
  assert (Hto : to_download (Sample.env Scenario.unauthorized) Allvisit Scenario.catalog_args
                  (Sample.world0 []))
    by (right; vm_compute; reflexivity).
  split; [vm_compute; reflexivity|]. split; [exact Hto|]. split; [vm_compute; reflexivity|].
  apply (allvisit_error_propagates (Sample.env Scenario.unauthorized) Scenario.catalog_args 0
           (Sample.world0 []) 401 "Unauthorized");
    [vm_compute; reflexivity | exact Hto | vm_compute; reflexivity].
Defined.

(** X8.  A failure of the network that is not an HTTP status is caught by
    no function: when the request for the file is answered by a
    [URLError], every public function raises it, after that one request. *)
Theorem network_failure_propagates (E : Env) (f : api) (a : args) (fuel : nat) (w : world) :
  apogee_default_dr E (dr a) = 17 ->
  download_reached E f a w ->
  server E (nreq w) (remote_url f a) = RespURLError ->
  call E f (S fuel) a w = (Raise URLError, refused E f a w).
Proof.
  intros Hdr [Hreach Hman] Hsrv. apply wp_equal.
  destruct f;
    cbn [call local_path local_folder remote_url refused is_spectra manifest_path] in *;
    try destruct (Hman eq_refl) as (mc & rows & Hm & Hl);
    wp_unfold; destruct Hreach as [Hflag|Hfile]; wp_go E; wp_done.
Qed.

Lemma network_failure_propagates_witness :
  let E := Sample.env Replay.unreachable in
  let a := Scenario.catalog_args in
  let w := Sample.world0 [] in
  apogee_default_dr E (dr a) = 17
  /\ download_reached E ApogeeAstronn a w
  /\ server E (nreq w) (remote_url ApogeeAstronn a) = RespURLError
  /\ call E ApogeeAstronn 1 a w = (Raise URLError, refused E ApogeeAstronn a w).
Proof.
  cbv zeta.
  assert (Hreach : download_reached (Sample.env Replay.unreachable) ApogeeAstronn
                     Scenario.catalog_args (Sample.world0 []))
    by (split; [right; vm_compute; reflexivity|intros H; discriminate H]).
  split; [vm_compute; reflexivity|]. split; [exact Hreach|]. split; [vm_compute; reflexivity|].
  apply (network_failure_propagates (Sample.env Replay.unreachable) ApogeeAstronn
           Scenario.catalog_args 0 (Sample.world0 []));
    [vm_compute; reflexivity | exact Hreach | vm_compute; reflexivity].
Defined.

(** X9.  For [allstar], [apogee_astronn], [allvisit] and [apogee_rc]: with
    a corrupt local copy and a remote that delivers the file as expected,
    the copy is replaced by the body delivered after one corruption
    warning and one request, and the path is returned. *)
Theorem corrupt_copy_is_replaced (E : Env) (f : api) (a : args) (fuel : nat) (w : world)
    (c0 c : string) :
  is_spectra f = false -> f <> ApogeeDistances ->
  apogee_default_dr E (dr a) = 17 ->
  apogee_default_dr E (Some 17) = 17 ->
  flag a = None ->
  fs w !! local_path E f a = Some c0 ->
  filehash E c0 <> fixed_hash f ->
  server E (nreq w) (remote_url f a) = RespOk c ->
  filehash E c = fixed_hash f ->
  call E f (S (S fuel)) a w
  = (Ret (PStr (local_path E f a)),
     downloaded E f a c (emit (EvWarn corruption_msg) (ensured (local_folder E f a) w))).
Proof.
  intros Hs Hf Hdr Hdr17 Hflag Hfile Hbad Hsrv Hgood.
  pose proof (valid_download_run E f (rec_args f a) fuel
                (emit (EvWarn corruption_msg) (ensured (local_folder E f a) w)) c Hf) as Hrec.
  assert (Hva : cache_valid E f (rec_args f a)
                  (emit (EvWarn corruption_msg) (ensured (local_folder E f a) w)) c)
    by (unfold cache_valid; rewrite Hs; exact Hgood).
  apply wp_equal. remember (S fuel) as n eqn:Hn.
  destruct f; try congruence; try discriminate;
    specialize (Hrec Hdr17 (or_introl eq_refl) Hsrv Hva);
    unfold downloaded in *;
    cbn [call local_path local_folder remote_url downloaded_msg fixed_hash rec_args
         dr flag] in *;
    wp_unfold; subst n;
    repeat first [wp_step E | rec_is_run a Hrec]; wp_done.
Qed.

Lemma corrupt_copy_is_replaced_witness :
  let E := Sample.env (Scenario.always allstar_file_hash) in
  let a := Scenario.catalog_args in
  let w := Sample.world0 [(Scenario.allstar_path, "corrupt")] in
  is_spectra Allstar = false /\ Allstar <> ApogeeDistances
  /\ apogee_default_dr E (dr a) = 17
  /\ apogee_default_dr E (Some 17) = 17
  /\ flag a = None
  /\ fs w !! local_path E Allstar a = Some "corrupt"
  /\ filehash E "corrupt" <> fixed_hash Allstar
  /\ server E (nreq w) (remote_url Allstar a) = RespOk allstar_file_hash
  /\ filehash E allstar_file_hash = fixed_hash Allstar
  /\ call E Allstar 2 a w
     = (Ret (PStr (local_path E Allstar a)),
        downloaded E Allstar a allstar_file_hash
          (emit (EvWarn corruption_msg) (ensured (local_folder E Allstar a) w))).
Proof.
  cbv zeta. split; [reflexivity|]. split; [discriminate|].
  do 4 (split; [vm_compute; reflexivity|]). split; [vm_compute; discriminate|].
  do 2 (split; [vm_compute; reflexivity|]).
  apply (corrupt_copy_is_replaced (Sample.env (Scenario.always allstar_file_hash)) Allstar
           Scenario.catalog_args 0 (Sample.world0 [(Scenario.allstar_path, "corrupt")])
           "corrupt" allstar_file_hash);
    [reflexivity | discriminate | vm_compute; reflexivity | vm_compute; reflexivity
    | vm_compute; reflexivity | vm_compute; reflexivity | vm_compute; discriminate
    | vm_compute; reflexivity | vm_compute; reflexivity].
Defined.

(** ** Credentials *)

(** X10.  For the five functions that retry with credentials: when the
    download is answered by an HTTP error whose text contains [401] and
    the retry is answered with a body, the body is stored and the path
    returned.  The checksum of this body is never looked at, whatever is
    delivered is kept. *)
Theorem authenticated_retry_is_not_verified (E : Env) (f : api) (a : args) (fuel : nat)
    (w : world) (code : Z) (msg c : string) :
  uses_credentials f = true ->
  apogee_default_dr E (dr a) = 17 ->
  download_reached E f a w ->
  server E (nreq w) (remote_url f a) = RespHTTPError code msg ->
  PyStr.contains "401" (str_HTTPError code msg) = true ->
  server E (S (nreq w)) (remote_url f a) = RespOk c ->
  call E f (S fuel) a w
  = (Ret (PStr (local_path E f a)),
     set_fs (fun m => <[local_path E f a := c]> m)
       (retried E (remote_url f a) (local_path E f a) (refused E f a w))).
Proof.
  intros Hf Hdr [Hreach Hman] Hsrv H401 Hretry. apply wp_equal.
  unfold retried, with_credentials, asked, refused. wp_red.
  destruct (credentials_username w) eqn:Hu;
  destruct f; try discriminate;
    cbn [call local_path local_folder remote_url refused is_spectra manifest_path] in *;
    try destruct (Hman eq_refl) as (mc & rows & Hm & Hl);
    wp_unfold; destruct Hreach as [Hflag|Hfile]; wp_go E; wp_done.
Qed.

Lemma authenticated_retry_is_not_verified_witness :
  let E := Sample.env (Replay.in_order [RespHTTPError 401 "Unauthorized"] (RespOk "corrupt")) in
  let a := Scenario.catalog_args in
  let w := Sample.world0 [] in
  uses_credentials Allstar = true
  /\ apogee_default_dr E (dr a) = 17
  /\ download_reached E Allstar a w
  /\ server E (nreq w) (remote_url Allstar a) = RespHTTPError 401 "Unauthorized"
  /\ PyStr.contains "401" (str_HTTPError 401 "Unauthorized") = true
  /\ server E (S (nreq w)) (remote_url Allstar a) = RespOk "corrupt"
  /\ filehash E "corrupt" <> fixed_hash Allstar
  /\ call E Allstar 1 a w
     = (Ret (PStr (local_path E Allstar a)),
        set_fs (fun m => <[local_path E Allstar a := "corrupt"]> m)
          (retried E (remote_url Allstar a) (local_path E Allstar a) (refused E Allstar a w))).
Proof.
  cbv zeta.
  assert (Hreach : download_reached
                     (Sample.env (Replay.in_order [RespHTTPError 401 "Unauthorized"]
                                    (RespOk "corrupt")))
                     Allstar Scenario.catalog_args (Sample.world0 []))
    by (split; [right; vm_compute; reflexivity|intros H; discriminate H]).
  do 2 (split; [vm_compute; reflexivity|]). split; [exact Hreach|].
  do 3 (split; [vm_compute; reflexivity|]). split; [vm_compute; discriminate|].
  apply (authenticated_retry_is_not_verified
           (Sample.env (Replay.in_order [RespHTTPError 401 "Unauthorized"] (RespOk "corrupt")))
           Allstar Scenario.catalog_args 0 (Sample.world0 []) 401 "Unauthorized" "corrupt");
    [vm_compute; reflexivity | vm_compute; reflexivity | exact Hreach
    | vm_compute; reflexivity ..].
Defined.

(** X11.  [__apogee_credentials_downloader] asks for credentials when no
    username is cached, and only then.  Unless the request is taken for a
    401: with no username cached, the notice is printed, a username and a
    password are read, in this order, and both are cached as typed; with
    a username cached, nothing is printed or read and the cached
    credentials stay as they are. *)
Theorem credentials_are_asked_once (E : Env) (url path : string) (w : world) :
  not_401 (server E (nreq w) url) ->
  forall r w', credentials_downloader E url path w = (r, w') ->
  (credentials_username w = None ->
   credentials_username w' = Some (stdin E (nin w))
   /\ credentials_pw w' = Some (stdin E (S (nin w)))
   /\ nin w' = S (S (nin w))
   /\ List.filter is_prompt (trace w')
      = [EvPrompt "Password: "; EvPrompt "Username: "; EvPrint credentials_notice]
        ++ List.filter is_prompt (trace w))
  /\ (forall u, credentials_username w = Some u ->
      credentials_username w' = Some u
      /\ credentials_pw w' = credentials_pw w
      /\ nin w' = nin w
      /\ List.filter is_prompt (trace w') = List.filter is_prompt (trace w)).
Proof.
  intros Hsrv. unfold not_401 in Hsrv. apply wp_run. unfold credentials_downloader.
  destruct (server E (nreq w) url) as [c|code msg|] eqn:Hs; wp_go E; wp_done.
Qed.

Lemma credentials_are_asked_once_witness :
  let E := Sample.env (Scenario.always "body") in
  let w := Sample.world0 [] in
  let w1 := (credentials_downloader E allstar_url Scenario.allstar_path w).2 in
  let w2 := (credentials_downloader E allstar_url Scenario.allstar_path w1).2 in
  not_401 (server E (nreq w) allstar_url)
  /\ not_401 (server E (nreq w1) allstar_url)
  /\ credentials_username w = None
  /\ credentials_username w1 = Some "user" /\ credentials_pw w1 = Some "secret"
  /\ nin w1 = 2%nat
  /\ credentials_username w2 = Some "user" /\ credentials_pw w2 = Some "secret"
  /\ nin w2 = 2%nat.
Proof.
  cbv zeta.
  pose proof (credentials_are_asked_once (Sample.env (Scenario.always "body")) allstar_url
                Scenario.allstar_path (Sample.world0 []) I _ _ (surjective_pairing _))
    as [Hfirst _].
  destruct (Hfirst eq_refl) as (Hu & Hp & Hn & _).
  pose proof (credentials_are_asked_once (Sample.env (Scenario.always "body")) allstar_url
                Scenario.allstar_path
                (credentials_downloader (Sample.env (Scenario.always "body")) allstar_url
                   Scenario.allstar_path (Sample.world0 [])).2
                I _ _ (surjective_pairing _)) as [_ Hsecond].
  destruct (Hsecond "user" Hu) as (Hu2 & Hp2 & Hn2 & _).
  split; [exact I|]. split; [exact I|]. split; [reflexivity|].
  split; [exact Hu|]. split; [exact Hp|]. split; [exact Hn|].
  split; [exact Hu2|]. split; [rewrite Hp2; exact Hp|]. rewrite Hn2. exact Hn.
Defined.

(** ** The manifest of a directory of spectra *)

(** X12.  [combined_spectra] and [visit_spectra]: when the manifest is not
    on disk and the probe of the directory listing is answered by an HTTP
    error, whatever its status, a 401 included, the call returns [False]
    at once: no warning, no request for credentials, no download; the
    local folder was created before. *)
Theorem unreachable_listing_returns_False (E : Env) (f : api) (a : args) (fuel : nat)
    (w : world) (code : Z) (msg : string) :
  is_spectra f = true ->
  apogee_default_dr E (dr a) = 17 ->
  fs w !! manifest_path E f a = None ->
  server E (nreq w) (listing_url f a) = RespHTTPError code msg ->
  call E f (S fuel) a w = (Ret PFalse, probed E f a w).
Proof.
  intros Hf Hdr Hman Hsrv. apply wp_equal.
  destruct f; try discriminate;
    cbn [call local_folder manifest_path listing_url probed] in *;
    wp_unfold; wp_go E; wp_done.
Qed.

Lemma unreachable_listing_returns_False_witness :
  let E := Sample.env Scenario.unauthorized in
  let a := Scenario.star in
  let w := Sample.world0 [] in
  is_spectra CombinedSpectra = true
  /\ apogee_default_dr E (dr a) = 17
  /\ fs w !! manifest_path E CombinedSpectra a = None
  /\ server E (nreq w) (listing_url CombinedSpectra a) = RespHTTPError 401 "Unauthorized"
  /\ call E CombinedSpectra 1 a w = (Ret PFalse, probed E CombinedSpectra a w).
Proof.
  cbv zeta. do 4 (split; [vm_compute; reflexivity|]).
  apply (unreachable_listing_returns_False (Sample.env Scenario.unauthorized) CombinedSpectra
           Scenario.star 0 (Sample.world0 []) 401 "Unauthorized");
    vm_compute; reflexivity.
Defined.

(** X13.  [combined_spectra] and [visit_spectra]: the request for the
    manifest is outside every [try].  When the listing answers and the
    request for the manifest is answered by an HTTP error, a 404
    included, the error leaves the function as it is raised. *)
Theorem manifest_error_propagates (E : Env) (f : api) (a : args) (fuel : nat)
    (w : world) (body : string) (code : Z) (msg : string) :
  is_spectra f = true ->
  apogee_default_dr E (dr a) = 17 ->
  fs w !! manifest_path E f a = None ->
  server E (nreq w) (listing_url f a) = RespOk body ->
  server E (S (nreq w)) (manifest_url f a) = RespHTTPError code msg ->
  call E f (S fuel) a w
  = (Raise (HTTPError code msg),
     tick_req (emit (EvUrlretrieve (manifest_url f a) (manifest_path E f a)) (probed E f a w))).
Proof.
  intros Hf Hdr Hman Hsrv Hsrv2. apply wp_equal.
  destruct f; try discriminate;
    cbn [call local_folder manifest_path listing_url manifest_url probed] in *;
    wp_unfold; wp_go E; wp_done.
Qed.

Lemma manifest_error_propagates_witness :
  let E := Sample.env (Replay.in_order [RespOk ""] (RespHTTPError 404 "Not Found")) in
  let a := Scenario.visit_star in
  let w := Sample.world0 [] in
  is_spectra VisitSpectra = true
  /\ apogee_default_dr E (dr a) = 17
  /\ fs w !! manifest_path E VisitSpectra a = None
  /\ server E (nreq w) (listing_url VisitSpectra a) = RespOk ""
  /\ server E (S (nreq w)) (manifest_url VisitSpectra a) = RespHTTPError 404 "Not Found"
  /\ call E VisitSpectra 1 a w
     = (Raise (HTTPError 404 "Not Found"),
        tick_req (emit (EvUrlretrieve (manifest_url VisitSpectra a)
                          (manifest_path E VisitSpectra a))
                    (probed E VisitSpectra a w))).
Proof.
  cbv zeta. do 5 (split; [vm_compute; reflexivity|]).
  apply (manifest_error_propagates
           (Sample.env (Replay.in_order [RespOk ""] (RespHTTPError 404 "Not Found")))
           VisitSpectra Scenario.visit_star 0 (Sample.world0 []) "" 404 "Not Found");
    vm_compute; reflexivity.
Defined.

(** X14.  [combined_spectra] and [visit_spectra]: when two or more rows of
    the manifest are selected for the file and a local copy is on disk
    (no flag), the comparison of the checksum with the selected checksums
    has no truth value and the call raises [ValueError]; nothing is
    fetched. *)
Theorem ambiguous_manifest_raises (E : Env) (f : api) (a : args) (fuel : nat)
    (w : world) (mc c : string) (rows : list (string * string)) (h1 h2 : string)
    (hs : list string) :
  is_spectra f = true ->
  apogee_default_dr E (dr a) = 17 ->
  flag a = None ->
  fs w !! manifest_path E f a = Some mc ->
  loadtxt E mc = Some rows ->
  manifest_file_hash f a rows = h1 :: h2 :: hs ->
  fs w !! local_path E f a = Some c ->
  call E f (S fuel) a w = (Raise (ValueError ambiguous_msg), ensured (local_folder E f a) w).
Proof.
  intros Hf Hdr Hflag Hm Hl Hrows Hfile. apply wp_equal.
  destruct f; try discriminate;
    cbn [call local_path local_folder manifest_path manifest_file_hash] in *;
    wp_unfold;
    repeat first
      [ lazymatch goal with
        | |- wp (ne_truth _ _) _ _ => rewrite ?Hrows; eapply wp_is_run; [reflexivity|]
        end
      | wp_step E ];
    wp_done.
Qed.

Lemma ambiguous_manifest_raises_witness :
  let E := Sample.env Scenario.not_found in
  let a := Scenario.visit_star in
  let w := Sample.world0 [(Scenario.visit_manifest_path, Replay.two_rows);
                          (Scenario.visit_star_path, "abc")] in
  is_spectra VisitSpectra = true
  /\ apogee_default_dr E (dr a) = 17
  /\ flag a = None
  /\ fs w !! manifest_path E VisitSpectra a = Some Replay.two_rows
  /\ loadtxt E Replay.two_rows
     = Some [("abc", "apStar-dr17-2M1.fits"); ("def", "apStar-dr17-2M10.fits")]
  /\ manifest_file_hash VisitSpectra a
       [("abc", "apStar-dr17-2M1.fits"); ("def", "apStar-dr17-2M10.fits")]
     = ["abc"; "def"]
  /\ fs w !! local_path E VisitSpectra a = Some "abc"
  /\ call E VisitSpectra 1 a w
     = (Raise (ValueError ambiguous_msg), ensured (local_folder E VisitSpectra a) w).
Proof.
  cbv zeta. do 7 (split; [vm_compute; reflexivity|]).
  apply (ambiguous_manifest_raises (Sample.env Scenario.not_found) VisitSpectra
           Scenario.visit_star 0
           (Sample.world0 [(Scenario.visit_manifest_path, Replay.two_rows);
                           (Scenario.visit_star_path, "abc")])
           Replay.two_rows "abc"
           [("abc", "apStar-dr17-2M1.fits"); ("def", "apStar-dr17-2M10.fits")]
           "abc" "def" []);
    vm_compute; reflexivity.
Defined.

Lemma visit_file_hash_from (pre suf : list (string * string)) (pattern : string) :
  omap (fun i => map fst (pre ++ suf) !! i)
    (map fst (List.filter (fun ix => PyStr.contains pattern (snd ix))
                (enumerate_from (length pre) (map snd suf))))
  = map fst (List.filter (selected pattern) suf).
Proof.
  revert pre. induction suf as [|row suf IH]; intros pre; [reflexivity|].
  cbn [map enumerate_from List.filter snd]. unfold selected at 1.
  assert (Hnext : omap (fun i => map fst (pre ++ row :: suf) !! i)
                    (map fst (List.filter (fun ix => PyStr.contains pattern (snd ix))
                                (enumerate_from (S (length pre)) (map snd suf))))
                  = map fst (List.filter (selected pattern) suf)).
  { specialize (IH (pre ++ [row])). rewrite length_app in IH. cbn [length] in IH.
    replace (length pre + 1)%nat with (S (length pre)) in IH by lia.
    rewrite <- app_assoc in IH. exact IH. }
  destruct (PyStr.contains pattern (snd row)) eqn:Hrow.
  - cbn [map fst].
    assert (Hlook : map fst (pre ++ row :: suf) !! length pre = Some (fst row)).
    { rewrite map_app. cbn [map].
      rewrite lookup_app_r by (rewrite length_map; lia).
      rewrite length_map, Nat.sub_diag. reflexivity. }
    cbn [omap list_omap]. rewrite Hlook. f_equal. exact Hnext.
  - exact Hnext.
Qed.

(** X15.  [visit_spectra] selects the rows of the manifest by position
    ([hash_idx]) and reads the checksums at these positions: every
    position is in range, and the checksums read are those of the rows
    whose file name contains the pattern, in the order of the manifest. *)
Theorem visit_file_hash_selects (hash_list : list (string * string)) (pattern : string) :
  visit_file_hash hash_list (visit_hash_idx hash_list pattern)
  = map fst (List.filter (selected pattern) hash_list).
Proof. exact (visit_file_hash_from [] hash_list pattern). Qed.

Lemma last_char_app_some x y c : last_char y = Some c -> last_char (x +:+ y) = Some c.
Proof.
  intros Hy. induction x as [|a x IH]; [exact Hy|].
  rewrite StrFacts.app_String. cbn [last_char].
  destruct (x +:+ y) eqn:Hx; [cbn in IH; discriminate IH|]. exact IH.
Qed.

Lemma last_char_join_step p b c :
  last_char b = Some c -> last_char (OsPath.join_step p b) = Some c.
Proof.
  intros Hb. unfold OsPath.join_step. destruct (PyStr.startswith _ _); [exact Hb|].
  destruct (_ || _)%bool; repeat apply last_char_app_some; exact Hb.
Qed.

Lemma last_char_local_path (E : Env) (f : api) (a : args) :
  is_spectra f = true -> last_char (local_path E f a) = Some "s"%char.
Proof.
  intros Hf. destruct f; try discriminate; cbn [local_path].
  - unfold combined_fullfilename, OsPath.join. cbn [fold_left].
    apply last_char_join_step. unfold combined_filename.
    repeat apply last_char_app_some. reflexivity.
  - unfold visit_fullfilename, OsPath.join. cbn [fold_left].
    apply last_char_join_step. unfold visit_filename.
    destruct (bool_decide _), (commission a); repeat apply last_char_app_some; reflexivity.
Qed.

Lemma last_char_manifest_path (E : Env) (f : api) (a : args) :
  last_char (manifest_path E f a) = Some "m"%char.
Proof.
  destruct f; cbn [manifest_path];
    unfold combined_full_hash_filename, visit_full_hash_filename, OsPath.join; cbn [fold_left];
    apply last_char_join_step; unfold combined_hash_filename, visit_hash_filename;
    repeat apply last_char_app_some; reflexivity.
Qed.

(** A spectrum and the manifest of a directory never share a path: one
    ends in [.fits], the other in [.sha1sum]. *)
Lemma spectrum_is_not_manifest (E : Env) (f : api) (a a' : args) :
  is_spectra f = true -> local_path E f a <> manifest_path E f a'.
Proof.
  intros Hf Heq. apply (f_equal last_char) in Heq.
  rewrite (last_char_local_path E f a Hf), last_char_manifest_path in Heq. discriminate.
Qed.

(** X16.  The first use of a directory of spectra, with nothing on disk or
    the file forced: the listing is probed, the manifest is fetched,
    stored and read, then the file is fetched and compared with the
    checksum the manifest lists for it.  Three requests in this order,
    both files are on disk afterwards and the path is returned. *)
Theorem first_spectrum_of_a_directory (E : Env) (f : api) (a : args) (fuel : nat) (w : world)
    (body mc c : string) (rows : list (string * string)) :
  is_spectra f = true ->
  apogee_default_dr E (dr a) = 17 ->
  fs w !! manifest_path E f a = None ->
  to_download E f a w ->
  server E (nreq w) (listing_url f a) = RespOk body ->
  server E (S (nreq w)) (manifest_url f a) = RespOk mc ->
  loadtxt E mc = Some rows ->
  manifest_file_hash f a rows = [filehash E c] ->
  server E (S (S (nreq w))) (remote_url f a) = RespOk c ->
  call E f (S fuel) a w
  = (Ret (PStr (local_path E f a)),
     emit (EvInfo (downloaded_msg E f a))
       (set_fs (fun m => <[local_path E f a := c]> m)
          (tick_req (emit (EvUrlretrieve (remote_url f a) (local_path E f a))
             (set_fs (fun m => <[manifest_path E f a := mc]> m)
                (tick_req (emit (EvUrlretrieve (manifest_url f a) (manifest_path E f a))
                   (probed E f a w)))))))).
Proof.
  intros Hf Hdr Hman Hreach Hl Hm Hload Hrows Hsrv. apply wp_equal.
  pose proof (spectrum_is_not_manifest E f a a Hf) as Hne.
  unfold to_download in Hreach.
  destruct f; try discriminate;
    cbn [call local_path local_folder remote_url manifest_path manifest_url listing_url
         manifest_file_hash downloaded_msg probed] in *;
    wp_unfold; destruct Hreach as [Hflag|Hfile];
    repeat first
      [ match goal with H : Some _ = Some rows |- _ => injection H as -> end
      | match goal with H : None = Some rows |- _ => discriminate H end
      | wp_red; rewrite lookup_insert_ne by (intros Hp; apply Hne; symmetry; exact Hp)
      | wp_step E ];
    wp_done.
Qed.

Lemma first_spectrum_of_a_directory_witness :
  let E := Sample.env (Replay.in_order [RespOk ""; RespOk Scenario.manifest_text] (RespOk "abc")) in
  let a := Scenario.star in
  let w := Sample.world0 [] in
  is_spectra CombinedSpectra = true
  /\ apogee_default_dr E (dr a) = 17
  /\ fs w !! manifest_path E CombinedSpectra a = None
  /\ to_download E CombinedSpectra a w
  /\ server E (nreq w) (listing_url CombinedSpectra a) = RespOk ""
  /\ server E (S (nreq w)) (manifest_url CombinedSpectra a) = RespOk Scenario.manifest_text
  /\ loadtxt E Scenario.manifest_text = Some Scenario.manifest_rows
  /\ manifest_file_hash CombinedSpectra a Scenario.manifest_rows = [filehash E "abc"]
  /\ server E (S (S (nreq w))) (remote_url CombinedSpectra a) = RespOk "abc"
  /\ (call E CombinedSpectra 1 a w).1 = Ret (PStr Scenario.star_path)
  /\ nreq (call E CombinedSpectra 1 a w).2 = 3%nat.
Proof.
  cbv zeta.
  assert (Hto : to_download
                  (Sample.env (Replay.in_order [RespOk ""; RespOk Scenario.manifest_text]
                                 (RespOk "abc")))
                  CombinedSpectra Scenario.star (Sample.world0 []))
    by (right; vm_compute; reflexivity).
  do 3 (split; [vm_compute; reflexivity|]). split; [exact Hto|].
  do 5 (split; [vm_compute; reflexivity|]).
  rewrite (first_spectrum_of_a_directory
             (Sample.env (Replay.in_order [RespOk ""; RespOk Scenario.manifest_text]
                            (RespOk "abc")))
             CombinedSpectra Scenario.star 0 (Sample.world0 []) "" Scenario.manifest_text "abc"
             Scenario.manifest_rows eq_refl eq_refl eq_refl Hto eq_refl eq_refl eq_refl eq_refl
             eq_refl).
  split; [vm_compute; reflexivity|reflexivity].
Defined.

(** ** What a call writes, and where *)

Lemma same_elsewhere_refl P m : same_elsewhere P m m.
Proof. intros p _. reflexivity. Qed.

Lemma same_elsewhere_trans P m1 m2 m3 :
  same_elsewhere P m1 m2 -> same_elsewhere P m2 m3 -> same_elsewhere P m1 m3.
Proof. intros H12 H23 p Hp. rewrite (H23 p Hp). apply H12. exact Hp. Qed.

Lemma same_elsewhere_insert (P : string -> Prop) m m' p c :
  P p -> same_elsewhere P m m' -> same_elsewhere P m (<[p:=c]> m').
Proof.
  intros HP H q Hq. rewrite lookup_insert_ne; [apply H; exact Hq|].
  intros ->. exact (Hq HP).
Qed.

Lemma same_elsewhere_weaken (P P' : string -> Prop) m m' :
  (forall p, P p -> P' p) -> same_elsewhere P m m' -> same_elsewhere P' m m'.
Proof. intros HP H p Hp. apply H. intros HPp. exact (Hp (HP p HPp)). Qed.

Lemma written_rec_args (E : Env) (f : api) (a : args) (p : string) :
  written E f (rec_args f (rec_args f a)) p -> written E f (rec_args f a) p.
Proof. destruct f; exact (fun H => H). Qed.

Lemma may_write_rec_args (E : Env) (f : api) (a : args) (p : string) :
  may_write E f (rec_args f a) p -> may_write E f a p.
Proof. intros [H|H]; right; [exact H|apply written_rec_args; exact H]. Qed.

Ltac solve_written :=
  left; first [left; reflexivity | right; split; reflexivity].

Ltac solve_framed :=
  repeat (apply same_elsewhere_insert; [solve_written|]);
  first [ apply same_elsewhere_refl
        | eapply same_elsewhere_trans; [|eassumption]; solve_framed ].

Ltac rec_framed a IH :=
  as_call a;
  eapply wp_conseq; [apply IH|]; unfold files_framed; wp_red;
  let H := fresh "Hfr" in
  intros [?|?|] ? H; apply (same_elsewhere_weaken _ _ _ _ (may_write_rec_args _ _ a)) in H.

Lemma call_files_framed (E : Env) (f : api) (fuel : nat) :
  forall a w, wp (call E f fuel a) (files_framed E f a w) w.
Proof.
  induction fuel as [|fuel IH]; intros a w.
  - destruct f; apply same_elsewhere_refl.
  - destruct f; cbn [call]; wp_unfold;
      repeat (dr_known; first [wp_stepx E | rec_framed a IH]);
      unfold files_framed; wp_red; solve_framed.
Qed.

(** X17.  A call deletes no file, and it changes or creates no file but
    its own: the file it is asked for and, for the spectra, the manifest
    of the directory, as the call and its corruption-recovery calls name
    them.  Every other path of the disk holds after the call what it held
    before, however the call ends. *)
Theorem only_own_files_are_written (E : Env) (f : api) (a : args) (fuel : nat) (w : world) :
  forall r w', call E f fuel a w = (r, w') ->
    (forall p, is_Some (fs w !! p) -> is_Some (fs w' !! p))
    /\ (forall p, ~ may_write E f a p -> fs w' !! p = fs w !! p).
Proof.
  intros r w' Hrun. split.
  - exact (proj1 (wp_run _ _ _) (call_keeps_files E f fuel a w) _ _ Hrun).
  - exact (proj1 (wp_run _ _ _) (call_files_framed E f fuel a w) _ _ Hrun).
Qed.

Lemma only_own_files_are_written_witness :
  let E := Sample.env (Scenario.always "corrupt") in
  let a := Scenario.catalog_args in
  let w := Sample.world0 [("/notes.txt", "mine")] in
  let w' := (call E Allstar 3 a w).2 in
  ~ may_write E Allstar a "/notes.txt"
  /\ fs w' !! "/notes.txt" = Some "mine"
  /\ fs w' !! Scenario.allstar_path = Some "corrupt".
Proof.
  cbv zeta.
  assert (Hnot : ~ may_write (Sample.env (Scenario.always "corrupt")) Allstar
                     Scenario.catalog_args "/notes.txt").
  { intros [[H|[H _]]|[H|[H _]]]; vm_compute in H; discriminate H. }
  split; [exact Hnot|]. split; [|vm_compute; reflexivity].
  rewrite (proj2 (only_own_files_are_written (Sample.env (Scenario.always "corrupt")) Allstar
                    Scenario.catalog_args 3 (Sample.world0 [("/notes.txt", "mine")]) _ _
                    (surjective_pairing _)) "/notes.txt" Hnot).
  vm_compute. reflexivity.
Defined.

(** A directory below the environment root: absolute, ending in a
    separator, and extended by what the component is extended by. *)
Lemma root_shape (env : string) (c : ascii) (A : string) :
  c <> "/"%char -> PyStr.endswith_sep (String c A) = true ->
  exists X',
    OsPath.join OsPath.sep [env; String c A] = String "/" X'
    /\ PyStr.endswith_sep (String "/" X') = true
    /\ forall T, OsPath.join_step (OsPath.join_step OsPath.sep env) (String c A +:+ T)
                 = String "/" X' +:+ T.
Proof.
  intros Hc HA. destruct (JoinFacts.root_abs env) as [R HR].
  unfold OsPath.join. cbn [fold_left]. rewrite HR.
  exists (R +:+ (if PyStr.endswith_sep (String "/" R) then "" else "/") +:+ String c A).
  assert (Hone : forall T,
             OsPath.join_step (String "/" R) (String c A +:+ T)
             = String "/" (R +:+ (if PyStr.endswith_sep (String "/" R) then "" else "/")
                             +:+ String c A) +:+ T).
  { intros T.
    rewrite JoinFacts.join_step_rel by (apply JoinFacts.startswith_app_rel; exact Hc).
    rewrite (bool_decide_eq_false_2 (String "/" R = "")) by discriminate. cbn [orb].
    rewrite <- StrFacts.app_String. rewrite !StrFacts.app_assoc. reflexivity. }
  split; [|split].
  - rewrite <- (PathFacts.app_nil_r (String c A)) at 1. rewrite Hone.
    apply PathFacts.app_nil_r.
  - replace (String "/" (R +:+ (if PyStr.endswith_sep (String "/" R) then "" else "/")
                           +:+ String c A))
      with ((String "/" R +:+ (if PyStr.endswith_sep (String "/" R) then "" else "/"))
            +:+ String c A)
      by (rewrite StrFacts.app_assoc; reflexivity).
    rewrite PathFacts.endswith_sep_app. exact HA.
  - exact Hone.
Qed.

Lemma startswith_combined_hash_filename t fld :
  PyStr.startswith (combined_hash_filename t fld) OsPath.sep = false.
Proof. unfold combined_hash_filename. apply JoinFacts.startswith_app_rel. discriminate. Qed.

Lemma startswith_visit_hash_filename t fld :
  PyStr.startswith (visit_hash_filename t fld) OsPath.sep = false.
Proof. unfold visit_hash_filename. apply JoinFacts.startswith_app_rel. discriminate. Qed.

Lemma startswith_combined_filename ap :
  PyStr.startswith (combined_filename ap) OsPath.sep = false.
Proof. unfold combined_filename. apply JoinFacts.startswith_app_rel. discriminate. Qed.

(** Files of the directory of a combined spectrum. *)
Lemma combined_file_path (E : Env) (t fld : option string) (fn : string) :
  slash_free (PyStr.fmt t) -> slash_free (PyStr.fmt fld) ->
  PyStr.startswith fn OsPath.sep = false ->
  OsPath.join OsPath.sep [combined_fullfoldername E 17 t fld; fn]
  = combined_root E +:+ combined_tail (PyStr.fmt t) (PyStr.fmt fld) fn.
Proof.
  intros HT HF Hfn.
  destruct (root_shape (apogee_env E) "d" "r17/apogee/spectro/aspcap/dr17/synspec/")
    as (X' & HX0 & HX & Hjoin); [discriminate|reflexivity|].
  unfold combined_root. rewrite HX0.
  unfold combined_fullfoldername, OsPath.join. cbn [fold_left].
  change ("dr" +:+ PyStr.of_Z 17 +:+ "/apogee/spectro/aspcap/" +:+ reduce_prefix +:+ "/" +:+
          aspcap_code +:+ "/" +:+ PyStr.fmt t)
    with ("dr17/apogee/spectro/aspcap/dr17/synspec/" +:+ PyStr.fmt t).
  rewrite Hjoin. apply (path_shape X' _ _ _ HX HT HF Hfn).
Qed.

(** Files of the directory of a visit spectrum. *)
Lemma visit_file_path (E : Env) (t fld : option string) (fn : string) :
  slash_free (PyStr.fmt fld) ->
  PyStr.startswith fn OsPath.sep = false ->
  OsPath.join OsPath.sep [visit_fullfoldername E 17 t fld; fn]
  = visit_root E +:+ visit_tail (PyStr.fmt t) (PyStr.fmt fld) fn.
Proof.
  intros HF Hfn.
  destruct (root_shape (apogee_env E) "d" "r17/apogee/spectro/redux/dr17/stars/")
    as (X' & HX0 & HX & Hjoin); [discriminate|reflexivity|].
  unfold visit_root. rewrite HX0.
  unfold visit_fullfoldername, OsPath.join. cbn [fold_left].
  change ("dr" +:+ PyStr.of_Z 17 +:+ "/apogee/spectro/redux/" +:+ reduce_prefix +:+ "/stars/" +:+
          PyStr.fmt t +:+ "/")
    with ("dr17/apogee/spectro/redux/dr17/stars/" +:+ PyStr.fmt t +:+ "/").
  rewrite Hjoin.
  replace (String "/" X' +:+ PyStr.fmt t +:+ "/")
    with (String "/" (X' +:+ PyStr.fmt t +:+ "/") +:+ "")
    by (rewrite PathFacts.app_nil_r; reflexivity).
  rewrite (path_shape (X' +:+ PyStr.fmt t +:+ "/") "" _ _).
  - unfold combined_tail, visit_tail, sep_unless_empty at 1.
    rewrite bool_decide_eq_true_2 by reflexivity.
    rewrite <- StrFacts.app_String, !StrFacts.app_assoc, !StrFacts.app_Empty. reflexivity.
  - replace (String "/" (X' +:+ PyStr.fmt t +:+ "/"))
      with ((String "/" X' +:+ PyStr.fmt t) +:+ "/")
      by (rewrite StrFacts.app_assoc; reflexivity).
    apply JoinFacts.endswith_sep_app_sep.
  - reflexivity.
  - exact HF.
  - exact Hfn.
Qed.

(** X18.  With a telescope and a field whose texts contain no separator,
    the spectra and the manifests are stored below the directory of the
    release: in the subdirectory of the telescope and the field, where an
    empty text adds no level ([combined_spectra]) or, for the telescope of
    [visit_spectra], an empty level. *)
Theorem spectra_are_stored_below_the_root (E : Env) (a : args) :
  slash_free (PyStr.fmt (telescope a)) -> slash_free (PyStr.fmt (field a)) ->
  local_path E CombinedSpectra a
  = combined_root E +:+ combined_tail (PyStr.fmt (telescope a)) (PyStr.fmt (field a))
                          (combined_filename (apogee a))
  /\ manifest_path E CombinedSpectra a
     = combined_root E +:+ combined_tail (PyStr.fmt (telescope a)) (PyStr.fmt (field a))
                             (combined_hash_filename (telescope a) (field a))
  /\ local_path E VisitSpectra a
     = visit_root E +:+ visit_tail (PyStr.fmt (telescope a)) (PyStr.fmt (field a))
                          (visit_filename (telescope a) (apogee a) (commission a))
  /\ manifest_path E VisitSpectra a
     = visit_root E +:+ visit_tail (PyStr.fmt (telescope a)) (PyStr.fmt (field a))
                          (visit_hash_filename (telescope a) (field a)).
Proof.
  intros HT HF. repeat split.
  - apply combined_file_path; auto using startswith_combined_filename.
  - apply combined_file_path; auto using startswith_combined_hash_filename.
  - apply visit_file_path; auto using startswith_visit_filename.
  - apply visit_file_path; auto using startswith_visit_hash_filename.
Qed.

Lemma spectra_are_stored_below_the_root_witness :
  let E := Sample.env Scenario.not_found in
  let a := Scenario.star in
  slash_free (PyStr.fmt (telescope a)) /\ slash_free (PyStr.fmt (field a))
  /\ combined_root E = "/sas/dr17/apogee/spectro/aspcap/dr17/synspec/"
  /\ local_path E CombinedSpectra a
     = combined_root E +:+ combined_tail "apo25m" "M13" "aspcapStar-dr17-2M0.fits"
  /\ local_path E VisitSpectra a
     = visit_root E +:+ visit_tail "apo25m" "M13" "apStar-dr17-2M0.fits".
Proof.
  cbv zeta. do 3 (split; [reflexivity|]).
  destruct (spectra_are_stored_below_the_root (Sample.env Scenario.not_found) Scenario.star
              eq_refl eq_refl) as (H1 & _ & H3 & _).
  split; [exact H1|exact H3].
Defined.



Lemma spectrum_not_written_by_recovery (E : Env) (f : api) (a : args) :
  is_spectra f = true ->
  slash_free (PyStr.fmt (telescope a)) -> slash_free (PyStr.fmt (field a)) ->
  ~ both_none a ->
  ~ may_write E f (rec_args f a) (local_path E f a).
Proof.
  intros Hf HT HF Hnot Hw.
  assert (Hrec : written E f (rec_args f a) (local_path E f a)).
  { destruct Hw as [H|H]; [exact H|apply written_rec_args; exact H]. }
  destruct Hrec as [H|[_ H]].
  - symmetry in H. exact (recovery_path_differs E f a Hf HT HF Hnot H).
  - exact (spectrum_is_not_manifest E f a (rec_args f a) Hf H).
Qed.

Ltac rec_frame_of a :=
  as_call a;
  eapply wp_conseq; [apply call_files_framed|]; unfold files_framed; wp_red;
  let H := fresh "Hfr" in intros [?|?|] ? H.

(** X20.  [combined_spectra] and [visit_spectra]: a local copy found
    corrupt is never repaired when a telescope or a field was given.  The
    recovery call works on the directory of [None/None], so the copy is
    on disk as it was when the call ends, however it ends. *)
Theorem corrupt_spectrum_is_left_as_it_is (E : Env) (f : api) (a : args) (fuel : nat)
    (w : world) (c : string) :
  is_spectra f = true ->
  apogee_default_dr E (dr a) = 17 ->
  flag a = None ->
  fs w !! local_path E f a = Some c ->
  mismatch E f a w c ->
  slash_free (PyStr.fmt (telescope a)) -> slash_free (PyStr.fmt (field a)) ->
  ~ both_none a ->
  forall r w', call E f fuel a w = (r, w') -> fs w' !! local_path E f a = Some c.
Proof.
  intros Hf Hdr Hflag Hfile Hbad HT HF Hnot.
  pose proof (spectrum_not_written_by_recovery E f a Hf HT HF Hnot) as Hnw.
  apply wp_run. destruct fuel as [|fuel]; [destruct f; exact Hfile|].
  unfold mismatch in Hbad. rewrite Hf in Hbad.
  destruct Hbad as (mc & hash_list & h & Hm & Hl & Hfh & Hbad).
  destruct f; try discriminate;
    cbn [call local_path local_folder manifest_path manifest_file_hash] in Hfile, Hm, Hfh, Hnw |- *;
    wp_unfold;
    repeat first [wp_stepx E | rec_frame_of a];
    wp_red; try exact Hfile;
    try (rewrite Hfr by exact Hnw; wp_red; exact Hfile).
Qed.

Lemma corrupt_spectrum_is_left_as_it_is_witness :
  let E := Sample.env (Scenario.always "abc") in
  let a := Scenario.star in
  let w := Sample.world0 [(Scenario.star_manifest_path, Scenario.manifest_text);
                          (Scenario.star_path, "corrupt")] in
  is_spectra CombinedSpectra = true
  /\ apogee_default_dr E (dr a) = 17
  /\ flag a = None
  /\ fs w !! local_path E CombinedSpectra a = Some "corrupt"
  /\ mismatch E CombinedSpectra a w "corrupt"
  /\ slash_free (PyStr.fmt (telescope a)) /\ slash_free (PyStr.fmt (field a))
  /\ ~ both_none a
  /\ fs (call E CombinedSpectra 3 a w).2 !! local_path E CombinedSpectra a = Some "corrupt".
Proof.
  cbv zeta.
  assert (Hbad : mismatch (Sample.env (Scenario.always "abc")) CombinedSpectra Scenario.star
                   (Sample.world0 [(Scenario.star_manifest_path, Scenario.manifest_text);
                                   (Scenario.star_path, "corrupt")]) "corrupt").
  { exists Scenario.manifest_text, Scenario.manifest_rows, "abc".
    repeat split; try (vm_compute; reflexivity). vm_compute. discriminate. }
  assert (Hnot : ~ both_none Scenario.star) by (intros [H _]; vm_compute in H; discriminate H).
  do 4 (split; [vm_compute; reflexivity|]). split; [exact Hbad|].
  do 2 (split; [reflexivity|]). split; [exact Hnot|].
  apply (corrupt_spectrum_is_left_as_it_is (Sample.env (Scenario.always "abc")) CombinedSpectra
           Scenario.star 3
           (Sample.world0 [(Scenario.star_manifest_path, Scenario.manifest_text);
                           (Scenario.star_path, "corrupt")])
           "corrupt" eq_refl eq_refl eq_refl eq_refl Hbad eq_refl eq_refl Hnot _ _
           (surjective_pairing _)).
Defined.

(** ** Arguments that are not used, and arguments that are left out *)

Lemma combined_spectra_location (E : Env) (fuel : nat) :
  forall d l l' fld ap t v fl,
    combined_spectra E fuel d l fld ap t v fl = combined_spectra E fuel d l' fld ap t v fl.
Proof.
  induction fuel as [|fuel IH]; intros d l l' fld ap t v fl; [reflexivity|].
  cbn [combined_spectra]. cbv zeta.
  rewrite (IH (Some (apogee_default_dr E d)) l l' None ap None v (Some 1)). reflexivity.
Qed.

Lemma visit_spectra_location (E : Env) (fuel : nat) :
  forall d l l' fld ap t v fl cm,
    visit_spectra E fuel d l fld ap t v fl cm = visit_spectra E fuel d l' fld ap t v fl cm.
Proof.
  induction fuel as [|fuel IH]; intros d l l' fld ap t v fl cm; [reflexivity|].
  cbn [visit_spectra]. cbv zeta.
  rewrite (IH (Some (apogee_default_dr E d)) l l' None ap None v (Some 1) false). reflexivity.
Qed.

(** X21.  The argument [location] is accepted by [combined_spectra] and
    [visit_spectra] and handed on to their recovery calls, but it is never
    read: a call does the same, and returns the same, whatever location
    it is given. *)
Theorem location_is_ignored (E : Env) (f : api) (fuel : nat) (a : args) (l : option Z)
    (w : world) :
  call E f fuel (with_location l a) w = call E f fuel a w.
Proof.
  destruct f; cbn [call with_location dr location field apogee telescope verbose flag commission];
    try reflexivity.
  - rewrite (combined_spectra_location E fuel _ l (location a)). reflexivity.
  - rewrite (visit_spectra_location E fuel _ l (location a)). reflexivity.
Qed.


